(** * Verification of the quote aggregation, swap execution and session
    management of the 9MM DEX MCP server.

    Shallow embedding of
    - [DEXAggregatorService.getBestQuote] and [get9MMQuote]   (dex-aggregator.ts)
    - [NineMMService.getSwapQuote], [executeSwap], [compareChainPrices]
                                                               (nine-mm-service.ts)
    - [WalletService.executeSwap], [disconnectWallet]          (wallet-service.ts)
    - [UserService] session table operations                   (user-service.ts)

    Remote calls (HTTP venues, RPC reads, transaction submission) are
    inputs of the model: an oracle function or an explicit argument gives
    their outcome.  Amount strings ([toAmount], [toAmountMin]) are read as
    integers, and JS numbers are IEEE-754 doubles: [parseFloat] of an
    amount is the integer rounded to the nearest double, and the
    arithmetic and comparisons on numbers (slippage, tolerance, savings)
    are the binary64 operations of [SpecFloat] (round to nearest, ties to
    even).  [calculatePriceImpact] alone is computed over exact
    rationals. *)

From Stdlib Require Import ZArith QArith Qround Qpower Lqa List Bool Lia Sorting.Sorted Sorting.Permutation.
From Stdlib Require Import Floats.SpecFloat.
From stdpp Require Import base gmap strings fin_maps pretty.
Import ListNotations.

Open Scope Z_scope.

(* ------------------------------------------------------------------ *)
(** ** JS numbers *)

Module Double.

(** binary64: 53-bit significands, exponents below 1024. *)
Definition prec : Z := 53.
Definition emax : Z := 1024.

(** [parseFloat] of a decimal integer string, and an integer-valued JS
    number: the integer rounded to the nearest double. *)
Definition of_Z (n : Z) : spec_float := binary_normalize prec emax n 0 false.

(** The decimal literal [n * 10^-k]: the double nearest to it, which is
    [n / 10^k] rounded once when [n] and [10^k] are below 2^53. *)
Definition lit (n k : Z) : spec_float := SFdiv prec emax (of_Z n) (of_Z (10 ^ k)).

Definition sub (x y : spec_float) : spec_float := SFsub prec emax x y.
Definition mul (x y : spec_float) : spec_float := SFmul prec emax x y.
Definition div (x y : spec_float) : spec_float := SFdiv prec emax x y.

(** [x < y] and [x <= y]: false when either is NaN. *)
Definition ltb (x y : spec_float) : bool := SFltb x y.
Definition leb (x y : spec_float) : bool := SFleb x y.

(** [BigInt(Math.floor(x))]: [BigInt] throws a RangeError on NaN and on
    the infinities. *)
Definition floorBigInt (x : spec_float) : option Z :=
  match x with
  | S754_zero _ => Some 0
  | S754_finite s m e => Some (Z.shiftr (cond_Zopp s (Zpos m)) (- e))
  | _ => None
  end.

Definition P2 (e : Z) : Q := Qpower (inject_Z 2) e.


(** The order of [SFcompare] on non-NaN doubles, as a lexicographic key. *)
Definition key (x : spec_float) : Z * Z * Z :=
  match x with
  | S754_infinity true => (0, 0, 0)
  | S754_finite true m e => (1, - e, - Zpos m)
  | S754_zero _ => (2, 0, 0)
  | S754_finite false m e => (3, e, Zpos m)
  | S754_infinity false => (4, 0, 0)
  | S754_nan => (0, 0, 0)
  end.

Definition keylt (a b : Z * Z * Z) : Prop :=
  let '(a1, a2, a3) := a in let '(b1, b2, b3) := b in
  a1 < b1 \/ (a1 = b1 /\ (a2 < b2 \/ (a2 = b2 /\ a3 < b3))).

End Double.

(* ------------------------------------------------------------------ *)
(** ** Data model (types/dex.ts) *)

Inductive DEXProtocol :=
| UNISWAP_V2 | UNISWAP_V3 | SUSHISWAP | PANCAKESWAP | CURVE | BALANCER
| ONEINCH | PARASWAP | DODO | KYBER | NINE_MM.

Definition DEXProtocol_eqb (a b : DEXProtocol) : bool :=
  match a, b with
  | UNISWAP_V2, UNISWAP_V2 | UNISWAP_V3, UNISWAP_V3 | SUSHISWAP, SUSHISWAP
  | PANCAKESWAP, PANCAKESWAP | CURVE, CURVE | BALANCER, BALANCER
  | ONEINCH, ONEINCH | PARASWAP, PARASWAP | DODO, DODO | KYBER, KYBER
  | NINE_MM, NINE_MM => true
  | _, _ => false
  end.

Lemma DEXProtocol_eqb_spec a b : DEXProtocol_eqb a b = true <-> a = b.
Proof. destruct a, b; simpl; split; congruence. Qed.

(** The fields of [ISwapQuote] the claims depend on. *)
Record ISwapQuote := mkQuote {
  dexProtocol : DEXProtocol;
  toAmount : Z;        (* parseFloat / BigInt of the toAmount string *)
  toAmountMin : Z;
  validUntil : Z;      (* ms timestamp *)
  q_chainId : Z
}.

(** [savings.amount]: the difference of the parsed amounts, a JS number. *)
Record Savings := mkSavings { savings_amount : spec_float }.

Record IDEXAggregatorQuote := mkAgg {
  bestQuote : ISwapQuote;
  allQuotes : list ISwapQuote;
  savings : Savings;
  recommendedDEX : DEXProtocol
}.

(** [IAPIResponse<T>]: [{success: true, data}] or [{success: false, error}]. *)
Inductive IAPIResponse (A : Type) :=
| Success (data : A)
| Failure (code : string) (message : string).
Arguments Success {A} _.
Arguments Failure {A} _ _.

(** The parts of [IDEXAPIConfig] that [getAvailableDEXsForChain] reads;
    [dexConfigs] is a Map keyed by protocol, iterated in insertion order. *)
Record IDEXAPIConfig := mkConfig {
  protocol : DEXProtocol;
  isActive : bool;
  supportedChains : list Z
}.

(* ------------------------------------------------------------------ *)
(** ** DEXAggregatorService.getBestQuote *)

Module Aggregator.

Definition nineMMChains : list Z := [8453; 369; 146].

Definition includes (l : list Z) (x : Z) : bool := existsb (Z.eqb x) l.

Definition getAvailableDEXsForChain (dexConfigs : list IDEXAPIConfig) (chainId : Z)
  : list DEXProtocol :=
  map protocol
    (filter (fun c => isActive c && includes (supportedChains c) chainId) dexConfigs).

(** The ordered list of venues queried: 9MM moved to the front on 9MM chains. *)
Definition orderedDEXs (dexConfigs : list IDEXAPIConfig) (chainId : Z) : list DEXProtocol :=
  let availableDEXs := getAvailableDEXsForChain dexConfigs chainId in
  if includes nineMMChains chainId
  then NINE_MM :: filter (fun d => negb (DEXProtocol_eqb d NINE_MM)) availableDEXs
  else availableDEXs.

(** [results.forEach]: keep the fulfilled, successful quotes, in order.
    [getQuoteFromDEX d] is [Some q] when the adapter succeeded with [q]. *)
Fixpoint collectValid (getQuoteFromDEX : DEXProtocol -> option ISwapQuote)
  (dexs : list DEXProtocol) : list ISwapQuote :=
  match dexs with
  | [] => []
  | d :: ds =>
      match getQuoteFromDEX d with
      | Some q => q :: collectValid getQuoteFromDEX ds
      | None => collectValid getQuoteFromDEX ds
      end
  end.

(** [parseFloat(q.toAmount)] *)
Definition parseAmount (q : ISwapQuote) : spec_float := Double.of_Z (toAmount q).

(** [validQuotes.reduce((best, current) =>
      parseFloat(current.toAmount) > parseFloat(best.toAmount) ? current : best)] *)
Definition reduceBest (q : ISwapQuote) (qs : list ISwapQuote) : ISwapQuote :=
  fold_left (fun best current =>
    if Double.ltb (parseAmount best) (parseAmount current) then current else best) qs q.

(** [validQuotes.reduce((worst, current) =>
      parseFloat(current.toAmount) < parseFloat(worst.toAmount) ? current : worst)] *)
Definition reduceWorst (q : ISwapQuote) (qs : list ISwapQuote) : ISwapQuote :=
  fold_left (fun worst current =>
    if Double.ltb (parseAmount current) (parseAmount worst) then current else worst) qs q.

(** [(bestAmount - nineMMAmount) / bestAmount <= 0.01] on doubles (x/0
    is an infinity or NaN, and NaN compares false). *)
Definition withinTolerance (bestAmount nineMMAmount : spec_float) : bool :=
  Double.leb (Double.div (Double.sub bestAmount nineMMAmount) bestAmount) (Double.lit 1 2).

Definition isNineMM (q : ISwapQuote) : bool := DEXProtocol_eqb (dexProtocol q) NINE_MM.

Definition getBestQuote (dexConfigs : list IDEXAPIConfig)
  (getQuoteFromDEX : DEXProtocol -> option ISwapQuote) (chainId : Z)
  : IAPIResponse IDEXAggregatorQuote :=
  let is9MMChain := includes nineMMChains chainId in
  let validQuotes := collectValid getQuoteFromDEX (orderedDEXs dexConfigs chainId) in
  match validQuotes with
  | [] => Failure "AGGREGATOR_ERROR" "No valid quotes found from any DEX"
  | q :: qs =>
      let best0 := reduceBest q qs in
      let bestQuote :=
        if is9MMChain then
          match find isNineMM validQuotes with
          | Some nineMMQuote =>
              if withinTolerance (parseAmount best0) (parseAmount nineMMQuote)
              then nineMMQuote else best0
          | None => best0
          end
        else best0 in
      let worstQuote := reduceWorst q qs in
      Success {| bestQuote := bestQuote;
                 allQuotes := validQuotes;
                 savings := {| savings_amount :=
                                 Double.sub (parseAmount bestQuote) (parseAmount worstQuote) |};
                 recommendedDEX := dexProtocol bestQuote |}
  end.

End Aggregator.

(* ------------------------------------------------------------------ *)
(** ** NineMMService.compareChainPrices *)

Module Compare.

(** [I9MMSwapQuote], restricted to what the comparison reads. *)
Record I9MMSwapQuote := mk9MMQuote {
  chainId : Z;
  toAmount9 : Z;
  toAmountMin9 : Z
}.

Definition supportedChains9MM : list Z := [8453; 369; 146].

(** The sequential [for ... of] loop with [try/catch]: a chain whose
    [getSwapQuote] throws ([None]) is logged and skipped. *)
Fixpoint collectQuotes (getSwapQuote : Z -> option I9MMSwapQuote) (chains : list Z)
  : list I9MMSwapQuote :=
  match chains with
  | [] => []
  | c :: cs =>
      match getSwapQuote c with
      | Some q => q :: collectQuotes getSwapQuote cs
      | None => collectQuotes getSwapQuote cs
      end
  end.

(** Comparator [(a, b) => Number(BigInt(b.toAmount) - BigInt(a.toAmount))]:
    only its sign matters to [Array.prototype.sort]. *)
Definition compareFn (a b : I9MMSwapQuote) : Z := toAmount9 b - toAmount9 a.

(** [Array.prototype.sort] is stable (ES2019); with a consistent
    comparator its result is that of a stable insertion sort: the earlier
    element [x] goes after exactly the leading elements [y] with
    [compareFn y x < 0]. *)
Fixpoint insertBy (x : I9MMSwapQuote) (l : list I9MMSwapQuote) : list I9MMSwapQuote :=
  match l with
  | [] => [x]
  | y :: ys => if compareFn y x <? 0 then y :: insertBy x ys else x :: y :: ys
  end.

Fixpoint sortBy (l : list I9MMSwapQuote) : list I9MMSwapQuote :=
  match l with
  | [] => []
  | x :: xs => insertBy x (sortBy xs)
  end.

Definition compareChainPrices (getSwapQuote : Z -> option I9MMSwapQuote)
  : list I9MMSwapQuote :=
  sortBy (collectQuotes getSwapQuote supportedChains9MM).

Definition getBestChainForPair (getSwapQuote : Z -> option I9MMSwapQuote)
  : option I9MMSwapQuote :=
  match compareChainPrices getSwapQuote with
  | [] => None
  | q :: _ => Some q
  end.

End Compare.

(* ------------------------------------------------------------------ *)
(** ** Minimum buy amount with slippage *)

Module Slippage.

(** [NineMMService.getSwapQuote] (slippage in percent, 0.5 = 0.5%):
<<
const slippageBN = BigInt(Math.floor(params.slippage * 100));
const toAmountMin = (toAmountBN * (10000n - slippageBN) / 10000n)
>>
    [params.slippage * 100] is a double product; BigInt division
    truncates toward zero: [Z.quot].  [None] when [BigInt] throws. *)
Definition getSwapQuoteMin (slippage : spec_float) (toAmount : Z) : option Z :=
  match Double.floorBigInt (Double.mul slippage (Double.of_Z 100)) with
  | None => None
  | Some slippageBN => Some (Z.quot (toAmount * (10000 - slippageBN)) 10000)
  end.

(** [DEXAggregatorService.get9MMQuote]:
<<
const toAmountMin = data.buyAmount ?
  (BigInt(data.buyAmount) * BigInt(Math.floor((100 - params.slippage) * 100)) / BigInt(10000)).toString() : '0';
>>
    [None] as [buyAmount] is a reply without it; the result is [None]
    when [BigInt] throws. *)
Definition get9MMQuoteMin (slippage : spec_float) (buyAmount : option Z) : option Z :=
  match buyAmount with
  | Some b =>
      match Double.floorBigInt
              (Double.mul (Double.sub (Double.of_Z 100) slippage) (Double.of_Z 100)) with
      | None => None
      | Some bps => Some (Z.quot (b * bps) 10000)
      end
  | None => Some 0
  end.

Definition get9MMQuoteAmount (buyAmount : option Z) : Z :=
  match buyAmount with Some b => b | None => 0 end.


End Slippage.

(* ------------------------------------------------------------------ *)
(** ** UserService: users, wallets, tokens and the shared WalletService *)

Module Sessions.

Record IUser := mkUser {
  id : string;
  sessionId : string;
  createdAt : Z;
  lastActive : Z;
  walletAddress : string;
  walletGenerated : bool
}.

Record IUserWallet := mkWallet {
  address : string;
  privateKey : string;
  mnemonic : string;
  chainIds : list Z;
  w_createdAt : Z
}.

Record IUserSession := mkSession {
  user : IUser;
  wallet : IUserWallet;
  token : string
}.

(** The four Maps of the [UserService] instance, and the [wallets] Map of
    the shared [walletService] singleton (chainId -> connected signer,
    represented by its private key). *)
Record State := mkState {
  users : gmap string IUser;
  userWallets : gmap string IUserWallet;
  sessionTokens : gmap string string;
  userSessions : gmap string string;
  connectedWallets : gmap Z string
}.

Definition set_users (st : State) (m : gmap string IUser) : State :=
  {| users := m; userWallets := userWallets st; sessionTokens := sessionTokens st;
     userSessions := userSessions st; connectedWallets := connectedWallets st |}.

Definition touch (u : IUser) (now : Z) : IUser :=
  {| id := id u; sessionId := sessionId u; createdAt := createdAt u; lastActive := now;
     walletAddress := walletAddress u; walletGenerated := walletGenerated u |}.

(** Result of [walletService.generateWallet] (success path). *)
Record GeneratedWallet := mkGenerated {
  g_address : string;
  g_privateKey : string;
  g_mnemonic : string
}.

(** Chains with a provider in [WalletService.initializeProviders]. *)
Definition providerChains : list Z := [8453; 369; 146].

(** [importWallet]: connect the wallet on every requested chain that has
    a provider ([this.wallets.set(chainId, connectedWallet)]). *)
Definition importWallet (key : string) (chainIds : list Z) (ws : gmap Z string) : gmap Z string :=
  fold_left (fun m c =>
    if Aggregator.includes providerChains c then <[c := key]> m else m) chainIds ws.

(** [createUser]: [userId], [sessionId] and [token] are the freshly
    generated identifiers ([randomBytes], [jwt.sign]); [now] is [new Date()]. *)
Definition createUser (chainIds : list Z) (userId sid token : string)
  (walletData : GeneratedWallet) (now : Z) (st : State) : IUserSession * State :=
  let ws := importWallet (g_privateKey walletData) chainIds (connectedWallets st) in
  let u := {| id := userId; sessionId := sid; createdAt := now; lastActive := now;
              walletAddress := g_address walletData; walletGenerated := true |} in
  let w := {| address := g_address walletData; privateKey := g_privateKey walletData;
              mnemonic := g_mnemonic walletData; chainIds := chainIds; w_createdAt := now |} in
  ({| user := u; wallet := w; token := token |},
   {| users := <[userId := u]> (users st);
      userWallets := <[userId := w]> (userWallets st);
      sessionTokens := <[token := userId]> (sessionTokens st);
      userSessions := <[sid := userId]> (userSessions st);
      connectedWallets := ws |}).

(** [getUserByToken]: [if (!userId) return null] also rejects [""]. *)
Definition getUserByToken (now : Z) (t : string) (st : State) : option IUser * State :=
  match sessionTokens st !! t with
  | None => (None, st)
  | Some userId =>
      if String.eqb userId "" then (None, st) else
      match users st !! userId with
      | Some u => let u' := touch u now in (Some u', set_users st (<[userId := u']> (users st)))
      | None => (None, st)
      end
  end.

(** [getUserSession]: read-only. *)
Definition getUserSession (t : string) (st : State) : option IUserSession :=
  match sessionTokens st !! t with
  | None => None
  | Some userId =>
      if String.eqb userId "" then None else
      match users st !! userId, userWallets st !! userId with
      | Some u, Some w => Some {| user := u; wallet := w; token := t |}
      | _, _ => None
      end
  end.

(** [validateToken]: [jwtVerify] is [jwt.verify] with the server secret
    ([None] when it throws). *)
Definition validateToken (jwtVerify : string -> option string) (now : Z) (t : string)
  (st : State) : option string * State :=
  match jwtVerify t with
  | None => (None, st)
  | Some userId =>
      match users st !! userId with
      | Some u => (Some userId, set_users st (<[userId := touch u now]> (users st)))
      | None => (None, st)
      end
  end.

(** [revokeSession]; [walletService.disconnectWallet()] with no chainId
    runs [this.wallets.clear()]. *)
Definition revokeSession (t : string) (st : State) : bool * State :=
  match sessionTokens st !! t with
  | None => (false, st)
  | Some userId =>
      if String.eqb userId "" then (false, st) else
      match users st !! userId with
      | Some u =>
          (true, {| users := delete userId (users st);
                    userWallets := delete userId (userWallets st);
                    sessionTokens := delete t (sessionTokens st);
                    userSessions := delete (sessionId u) (userSessions st);
                    connectedWallets := ∅ |})
      | None => (false, st)
      end
  end.

Definition maxInactiveTime : Z := 24 * 60 * 60 * 1000.

Definition isSessionActive (now : Z) (u : IUser) : bool := now - lastActive u <? maxInactiveTime.

(** [cleanupExpiredSessions]: deleting one user does not change whether
    another is active, so the loop over [users.entries()] removes exactly
    the inactive users, every token mapped to one of them, their session
    ids and their wallets. *)
Definition cleanupExpiredSessions (now : Z) (st : State) : State :=
  let expired := filter (fun kv : string * IUser => isSessionActive now kv.2 = false) (users st) in
  {| users := filter (fun kv : string * IUser => isSessionActive now kv.2 = true) (users st);
     userWallets := filter (fun kv : string * IUserWallet => expired !! kv.1 = None) (userWallets st);
     sessionTokens := filter (fun kv : string * string => expired !! kv.2 = None) (sessionTokens st);
     userSessions := map_fold (fun _ u m => delete (sessionId u) m) (userSessions st) expired;
     connectedWallets := connectedWallets st |}.

(** The same state with other wallet records and other connected
    signers: used to state that an operation's result does not read them. *)
Definition replaceSecrets (st : State) (ws : gmap string IUserWallet) (cw : gmap Z string) : State :=
  {| users := users st; userWallets := ws; sessionTokens := sessionTokens st;
     userSessions := userSessions st; connectedWallets := cw |}.

(** The operations of the session table, for statements about what
    happens after a call. *)
Inductive Op :=
| OpGetUserByToken (now : Z) (t : string)
| OpValidateToken (jwtVerify : string -> option string) (now : Z) (t : string)
| OpRevokeSession (t : string)
| OpCleanup (now : Z)
| OpCreateUser (chainIds : list Z) (userId sid tok : string) (g : GeneratedWallet) (now : Z).

Definition runOp (op : Op) (st : State) : State :=
  match op with
  | OpGetUserByToken now t => snd (getUserByToken now t st)
  | OpValidateToken v now t => snd (validateToken v now t st)
  | OpRevokeSession t => snd (revokeSession t st)
  | OpCleanup now => cleanupExpiredSessions now st
  | OpCreateUser cs uid sid tok g now => snd (createUser cs uid sid tok g now st)
  end.

Definition runOps (ops : list Op) (st : State) : State :=
  fold_left (fun s op => runOp op s) ops st.

(** A newly issued token differs from [t] (fresh random user id in the JWT). *)
Definition issuesOtherToken (t : string) (op : Op) : bool :=
  match op with
  | OpCreateUser _ _ _ tok _ _ => negb (String.eqb tok t)
  | _ => true
  end.

End Sessions.

(* ------------------------------------------------------------------ *)
(** ** Concrete inputs *)

Module Scenario.
Import Aggregator.

Definition e18 : Z := 10 ^ 18.

(** Three venues configured for PulseChain (369). *)
Definition configs : list IDEXAPIConfig :=
  [ {| protocol := ONEINCH; isActive := true; supportedChains := [1; 369] |};
    {| protocol := PARASWAP; isActive := true; supportedChains := [369] |};
    {| protocol := NINE_MM; isActive := true; supportedChains := [8453; 369; 146] |} ].

Definition mkQ (d : DEXProtocol) (amt : Z) : ISwapQuote :=
  {| dexProtocol := d; toAmount := amt; toAmountMin := amt; validUntil := 30000; q_chainId := 369 |}.

Definition quote1inch : ISwapQuote := mkQ ONEINCH (2000 * e18).
Definition quoteParaswap : ISwapQuote := mkQ PARASWAP (1950 * e18).
Definition quote9mm : ISwapQuote := mkQ NINE_MM (1975 * e18).

(** Spec scenario 1: buyAmounts 2000e18, 1950e18, 1975e18, the preferred
    venue (9MM) produced 1975e18. *)
Definition adapters (d : DEXProtocol) : option ISwapQuote :=
  match d with
  | ONEINCH => Some quote1inch
  | PARASWAP => Some quoteParaswap
  | NINE_MM => Some quote9mm
  | _ => None
  end.

(** The same venues with ParaSwap failing. *)
Definition adaptersOneFails (d : DEXProtocol) : option ISwapQuote :=
  match d with PARASWAP => None | _ => adapters d end.

Definition adaptersAllFail (d : DEXProtocol) : option ISwapQuote := None.

(** 1inch at 1e18 and ParaSwap at 1e18 + 1 (the same double), 9MM
    failing. *)
Definition adaptersNearTie (d : DEXProtocol) : option ISwapQuote :=
  match d with
  | ONEINCH => Some (mkQ ONEINCH e18)
  | PARASWAP => Some (mkQ PARASWAP (e18 + 1))
  | _ => None
  end.

(** 1inch at 100e18 and 9MM at 99e18 - 1, ParaSwap failing: 9MM is
    1% + 1e-20 below the best. *)
Definition adaptersTolerance (d : DEXProtocol) : option ISwapQuote :=
  match d with
  | ONEINCH => Some (mkQ ONEINCH (100 * e18))
  | NINE_MM => Some (mkQ NINE_MM (99 * e18 - 1))
  | _ => None
  end.

End Scenario.

(* ------------------------------------------------------------------ *)
(** ** Concrete session tables *)

Module SessionScenario.
Import Sessions.

Definition genWallet : GeneratedWallet :=
  {| g_address := "0xaddr"; g_privateKey := "0xpriv"; g_mnemonic := "word list" |}.

Definition emptyState : State :=
  {| users := ∅; userWallets := ∅; sessionTokens := ∅; userSessions := ∅; connectedWallets := ∅ |}.

(** User A, created at t = 0 and never active since. *)
Definition staleState : State := snd (createUser [369] "user_a" "session_a" "tok_a" genWallet 0 emptyState).

(** Two days later. *)
Definition twoDays : Z := 2 * maxInactiveTime.

(** User B created after A: the shared wallet service now holds B's key. *)
Definition genWalletB : GeneratedWallet :=
  {| g_address := "0xaddrB"; g_privateKey := "0xprivB"; g_mnemonic := "other words" |}.

Definition twoUsers : State :=
  snd (createUser [8453; 369] "user_b" "session_b" "tok_b" genWalletB 10 staleState).

End SessionScenario.

(* ------------------------------------------------------------------ *)
(** ** DEXAggregatorService: configuration Map and per-venue adapters *)

Module DexService.
Import Aggregator.

(** The string values of [DEXProtocol] (types/dex.ts). *)
Definition protocolName (p : DEXProtocol) : string :=
  match p with
  | UNISWAP_V2 => "uniswap_v2" | UNISWAP_V3 => "uniswap_v3" | SUSHISWAP => "sushiswap"
  | PANCAKESWAP => "pancakeswap" | CURVE => "curve" | BALANCER => "balancer"
  | ONEINCH => "1inch" | PARASWAP => "paraswap" | DODO => "dodo" | KYBER => "kyber"
  | NINE_MM => "9mm"
  end.

(** [dexConfigs : Map<DEXProtocol, IDEXAPIConfig>] as its entries in
    insertion order.  Every write goes through [set(config.protocol, ...)]
    or [set(protocol, {...existing, ...})], so each entry's key is its
    [protocol] field.  [httpClients] gets an entry for every key written
    by the constructor and by [addCustomDEX], so the [!client] test never
    fails on its own. *)
Definition mapGet (m : list IDEXAPIConfig) (p : DEXProtocol) : option IDEXAPIConfig :=
  find (fun c => DEXProtocol_eqb (protocol c) p) m.

(** [Map.prototype.set]: an existing key keeps its position, a new key
    is appended. *)
Fixpoint mapSet (c : IDEXAPIConfig) (m : list IDEXAPIConfig) : list IDEXAPIConfig :=
  match m with
  | [] => [c]
  | c' :: m' => if DEXProtocol_eqb (protocol c') (protocol c) then c :: m' else c' :: mapSet c m'
  end.

(** The array of [initializeDEXConfigs]. *)
Definition configArray : list IDEXAPIConfig :=
  [ {| protocol := ONEINCH; isActive := true; supportedChains := [1; 56; 137; 42161; 10; 8453] |};
    {| protocol := PARASWAP; isActive := true; supportedChains := [1; 56; 137; 42161; 10; 43114] |};
    {| protocol := UNISWAP_V3; isActive := true; supportedChains := [1; 137; 42161; 10; 8453] |};
    {| protocol := SUSHISWAP; isActive := true; supportedChains := [1; 56; 137; 42161; 10] |};
    {| protocol := PANCAKESWAP; isActive := true; supportedChains := [56] |};
    {| protocol := NINE_MM; isActive := true; supportedChains := [8453; 369; 146] |} ].

(** [configs.forEach(config => this.dexConfigs.set(config.protocol, config))] *)
Definition initializeDEXConfigs : list IDEXAPIConfig :=
  fold_left (fun m c => mapSet c m) configArray [].

(** [Partial<IDEXAPIConfig>], for the fields of the configuration that
    the quoting path reads. *)
Record ConfigUpdate := mkUpdate {
  upd_isActive : option bool;
  upd_supportedChains : option (list Z)
}.

(** [{ ...existingConfig, ...updates }] *)
Definition mergeConfig (c : IDEXAPIConfig) (u : ConfigUpdate) : IDEXAPIConfig :=
  {| protocol := protocol c;
     isActive := match upd_isActive u with Some b => b | None => isActive c end;
     supportedChains := match upd_supportedChains u with Some l => l | None => supportedChains c end |}.

Definition updateDEXConfig (p : DEXProtocol) (u : ConfigUpdate) (m : list IDEXAPIConfig)
  : list IDEXAPIConfig :=
  match mapGet m p with
  | Some existingConfig => mapSet (mergeConfig existingConfig u) m
  | None => m
  end.

Definition toggleDEX (p : DEXProtocol) (b : bool) (m : list IDEXAPIConfig) : list IDEXAPIConfig :=
  updateDEXConfig p {| upd_isActive := Some b; upd_supportedChains := None |} m.

Definition addCustomDEX (c : IDEXAPIConfig) (m : list IDEXAPIConfig) : list IDEXAPIConfig :=
  mapSet c m.

(** Outcome of the 9MM HTTP request: it throws, the body is empty, or
    the body carries [buyAmount] (or not). *)
Inductive NineMMReply :=
| NMThrows (msg : string)
| NMEmpty
| NMData (buyAmount : option Z).

(** Outcomes of the venue requests: the error message of a throwing
    request, or the amount read from the body ([data.toTokenAmount] for
    1inch, [priceRoute.destAmount] for ParaSwap). *)
Record Replies := mkReplies {
  oneInchReply : string + Z;
  paraswapReply : string + Z;
  nineMMReply : NineMMReply
}.

(** [get1inchQuote] and [getParaswapQuote]: [toAmountMin] is the
    amount itself; [validUntil: Date.now() + 30000]. *)
Definition get1inchQuote (rep : Replies) (now chainId : Z) : string + ISwapQuote :=
  match oneInchReply rep with
  | inl msg => inl msg
  | inr a => inr {| dexProtocol := ONEINCH; toAmount := a; toAmountMin := a;
                    validUntil := now + 30000; q_chainId := chainId |}
  end.

Definition getParaswapQuote (rep : Replies) (now chainId : Z) : string + ISwapQuote :=
  match paraswapReply rep with
  | inl msg => inl msg
  | inr a => inr {| dexProtocol := PARASWAP; toAmount := a; toAmountMin := a;
                    validUntil := now + 30000; q_chainId := chainId |}
  end.

(** [baseUrls[params.chainId]] *)
Definition nineMMBaseUrl (chainId : Z) : option string :=
  if chainId =? 369 then Some "https://api.9mm.pro"
  else if chainId =? 8453 then Some "https://api-base.9mm.pro"
  else if chainId =? 146 then Some "https://api-sonic.9mm.pro"
  else None.

Definition get9MMQuote (rep : Replies) (now : Z) (slippage : spec_float) (chainId : Z)
  : string + ISwapQuote :=
  match nineMMBaseUrl chainId with
  | None => inl ("9MM API not available for chain " +:+ pretty chainId)
  | Some _ =>
      match nineMMReply rep with
      | NMThrows msg => inl msg
      | NMEmpty => inl "Invalid response from 9MM API"
      | NMData b =>
          match Slippage.get9MMQuoteMin slippage b with
          | None => inl "RangeError: the slippage cannot be converted to a BigInt"
          | Some toAmountMin =>
              inr {| dexProtocol := NINE_MM;
                     toAmount := Slippage.get9MMQuoteAmount b;
                     toAmountMin := toAmountMin;
                     validUntil := now + 30000; q_chainId := chainId |}
          end
      end
  end.

Definition quoteError (msg : string) : IAPIResponse ISwapQuote := Failure "DEX_QUOTE_ERROR" msg.

(** [getQuoteFromDEX]: every exception becomes a [DEX_QUOTE_ERROR]. *)
Definition getQuoteFromDEX (m : list IDEXAPIConfig) (rep : Replies) (now : Z) (slippage : spec_float)
  (chainId : Z) (p : DEXProtocol) : IAPIResponse ISwapQuote :=
  match mapGet m p with
  | None => quoteError ("DEX " +:+ protocolName p +:+ " not configured")
  | Some config =>
      if negb (includes (supportedChains config) chainId)
      then quoteError ("Chain " +:+ pretty chainId +:+ " not supported by " +:+ protocolName p)
      else
        let quote :=
          match p with
          | ONEINCH => get1inchQuote rep now chainId
          | PARASWAP => getParaswapQuote rep now chainId
          | UNISWAP_V3 => inl "Uniswap quote integration not yet implemented - use SDK"
          | SUSHISWAP => inl "SushiSwap quote integration not yet implemented"
          | PANCAKESWAP => inl "PancakeSwap quote integration not yet implemented"
          | NINE_MM => get9MMQuote rep now slippage chainId
          | _ => inl ("Quote method not implemented for " +:+ protocolName p)
          end in
        match quote with
        | inl msg => quoteError msg
        | inr q => Success q
        end
  end.

(** [result.status === 'fulfilled' && result.value.success && result.value.data] *)
Definition fulfilled (r : IAPIResponse ISwapQuote) : option ISwapQuote :=
  match r with Success q => Some q | Failure _ _ => None end.

(** [getBestQuote] over the service's own adapters (one clock reading
    for all venues). *)
Definition getBestQuoteService (m : list IDEXAPIConfig) (rep : Replies) (now : Z)
  (slippage : spec_float) (chainId : Z) : IAPIResponse IDEXAggregatorQuote :=
  getBestQuote m (fun p => fulfilled (getQuoteFromDEX m rep now slippage chainId p)) chainId.

(** The configuration-changing calls of the service. *)
Inductive ConfigOp :=
| OpAddCustomDEX (c : IDEXAPIConfig)
| OpUpdateDEXConfig (p : DEXProtocol) (u : ConfigUpdate)
| OpToggleDEX (p : DEXProtocol) (b : bool).

Definition runConfigOp (op : ConfigOp) (m : list IDEXAPIConfig) : list IDEXAPIConfig :=
  match op with
  | OpAddCustomDEX c => addCustomDEX c m
  | OpUpdateDEXConfig p u => updateDEXConfig p u m
  | OpToggleDEX p b => toggleDEX p b m
  end.

(** The configuration after the constructor and a sequence of calls. *)
Definition configsAfter (ops : list ConfigOp) : list IDEXAPIConfig :=
  fold_left (fun m op => runConfigOp op m) ops initializeDEXConfigs.

End DexService.

(* ------------------------------------------------------------------ *)
(** ** WalletService: disconnecting *)

Module WalletService.



End WalletService.

(* ------------------------------------------------------------------ *)
(** ** NineMMService: router contract cache, quotes, price impact *)

Module NineMM.
Import Aggregator.

(** What a cached router [Contract] is bound to: the chain's read-only
    provider, or a signer (named by its private key). *)
Inductive Runner := RProvider | RSigner (key : string).

(** The keys of [CHAIN_9MM_CONFIGS]; [get9MMConfig] throws on any other
    chain. *)
Definition deployedChains : list Z := [8453; 369; 146].

(** [getRouterContract(chainId, signer?)]: [routers] holds the
    [router-${chainId}] entries of [this.contracts], [hasProvider] tells
    whether [this.providers] has the chain.  [None] when it throws. *)
Definition getRouterContract (hasProvider : Z -> bool) (chainId : Z) (signer : option string)
  (routers : gmap Z Runner) : option Runner * gmap Z Runner :=
  match routers !! chainId with
  | Some r => (Some r, routers)
  | None =>
      if negb (includes deployedChains chainId) then (None, routers) else
      match signer with
      | Some s => (Some (RSigner s), <[chainId := RSigner s]> routers)
      | None =>
          if hasProvider chainId then (Some RProvider, <[chainId := RProvider]> routers)
          else (None, routers)
      end
  end.

(** [getSwapQuote]: [amountsOut] is [router.getAmountsOut(...)[1]]
    ([None] when it or the gas estimate throws).  Returns
    [(toAmount, toAmountMin)]. *)
Definition getSwapQuote (hasProvider : Z -> bool) (amountsOut : option Z) (chainId : Z)
  (slippage : spec_float) (routers : gmap Z Runner) : option (Z * Z) * gmap Z Runner :=
  if negb (includes deployedChains chainId) then (None, routers) else
  if negb (hasProvider chainId) then (None, routers) else
  match getRouterContract hasProvider chainId None routers with
  | (None, routers') => (None, routers')
  | (Some _, routers') =>
      match amountsOut with
      | None => (None, routers')
      | Some toAmount =>
          match Slippage.getSwapQuoteMin slippage toAmount with
          | None => (None, routers')
          | Some toAmountMin => (Some (toAmount, toAmountMin), routers')
          end
      end
  end.

(** [executeSwap(params, signer)]: the router through which
    [swapExactTokensForTokens] is sent, with the [toAmountMin] passed,
    or [None] when an earlier step throws. *)
Definition executeSwap (hasProvider : Z -> bool) (amountsOut : option Z) (chainId : Z)
  (slippage : spec_float) (signer : string) (routers : gmap Z Runner)
  : option (Runner * Z) * gmap Z Runner :=
  let '(quote, routers1) := getSwapQuote hasProvider amountsOut chainId slippage routers in
  match quote with
  | None => (None, routers1)
  | Some (_, toAmountMin) =>
      let '(router, routers2) := getRouterContract hasProvider chainId (Some signer) routers1 in
      match router with
      | None => (None, routers2)
      | Some r => (Some (r, toAmountMin), routers2)
      end
  end.

(** [addLiquidity(params, signer)] up to the contract call: the router
    through which [addLiquidity] is sent. *)
Definition addLiquidity (hasProvider : Z -> bool) (chainId : Z) (signer : string)
  (routers : gmap Z Runner) : option Runner * gmap Z Runner :=
  getRouterContract hasProvider chainId (Some signer) routers.

(** [removeLiquidity(chainId, ..., signer)] up to the contract call. *)
Definition removeLiquidity (hasProvider : Z -> bool) (chainId : Z) (signer : string)
  (routers : gmap Z Runner) : option Runner * gmap Z Runner :=
  getRouterContract hasProvider chainId (Some signer) routers.

(** The calls of the service that reach [getRouterContract], with the
    outcomes of their remote reads ([compareChainPrices] and
    [getBestChainForPair] are [getSwapQuote] calls). *)
Inductive RouterOp :=
| OpGetSwapQuote (amountsOut : option Z) (chainId : Z) (slippage : spec_float)
| OpExecuteSwap (amountsOut : option Z) (chainId : Z) (slippage : spec_float) (signer : string)
| OpAddLiquidity (chainId : Z) (signer : string)
| OpRemoveLiquidity (chainId : Z) (signer : string).

Definition runRouterOp (hasProvider : Z -> bool) (op : RouterOp) (routers : gmap Z Runner)
  : gmap Z Runner :=
  match op with
  | OpGetSwapQuote ao c s => snd (getSwapQuote hasProvider ao c s routers)
  | OpExecuteSwap ao c s signer => snd (executeSwap hasProvider ao c s signer routers)
  | OpAddLiquidity c signer => snd (addLiquidity hasProvider c signer routers)
  | OpRemoveLiquidity c signer => snd (removeLiquidity hasProvider c signer routers)
  end.

Definition runRouterOps (hasProvider : Z -> bool) (ops : list RouterOp) (routers : gmap Z Runner)
  : gmap Z Runner :=
  fold_left (fun rs op => runRouterOp hasProvider op rs) ops routers.

Open Scope Q_scope.


End NineMM.

(* ------------------------------------------------------------------ *)
(** ** WalletService.executeSwap *)

Module Executor.

(** One call of [router.swapExactTokensForTokens] that reaches the
    network: the outbound, state-changing submission, signed with
    [sub_signer]. *)
Record Submission := mkSubmission {
  sub_chainId : Z;
  sub_amountIn : Z;
  sub_amountOutMin : Z;
  sub_deadline : Z;
  sub_signer : string
}.

Record I9MMSwapParams := mkParams {
  p_chainId : Z;
  p_amount : Z;
  p_slippage : spec_float;
  p_deadline : option Z   (* [params.deadline || ...]: [None] for 0/undefined *)
}.

Record ITransactionResult := mkTxResult {
  success : bool;
  txHash : option string;
  error : option string;
  dexUsed : option DEXProtocol
}.

Definition txFailure (msg : string) : ITransactionResult :=
  {| success := false; txHash := None; error := Some msg; dexUsed := None |}.

(** Outcomes of the remote calls made along the way. *)
Record Remote := mkRemote {
  hasProvider : bool;                            (* this.providers.get(chainId) *)
  nativeBalance : Z;                             (* provider.getBalance, in wei *)
  aggregatorResult : IAPIResponse IDEXAggregatorQuote;
  nineMMHasProvider : Z -> bool;                 (* nineMMService's providers *)
  amountsOut : option Z;                         (* router.getAmountsOut(...)[1], or throws *)
  submitResult : option string;                  (* tx hash, or the submission throws *)
  receiptOk : bool                               (* provider.waitForTransaction resolves *)
}.

(** [ethers.parseEther('0.001')] *)
Definition minBalance : Z := 1000000000000000.

(** [checkGasBalance]: returns early without a provider. *)
Definition checkGasBalance (r : Remote) : bool :=
  if hasProvider r then minBalance <=? nativeBalance r else true.

(** [nineMMService.executeSwap(params, wallet)] for the connected signer
    [wallet] (named by its key), over the service's router cache.  The
    swap goes through the router that [NineMM.executeSwap] picks; a
    provider-bound router cannot send a transaction (ethers throws before
    any request), so only a signer-bound one submits.  Returns the hash
    ([None] when it throws), the submissions and the cache. *)
Definition nineMMExecuteSwap (now : Z) (params : I9MMSwapParams) (wallet : string) (r : Remote)
  (routers : gmap Z NineMM.Runner) : option string * list Submission * gmap Z NineMM.Runner :=
  match NineMM.executeSwap (nineMMHasProvider r) (amountsOut r) (p_chainId params)
          (p_slippage params) wallet routers with
  | (None, routers') => (None, [], routers')
  | (Some (NineMM.RProvider, _), routers') => (None, [], routers')
  | (Some (NineMM.RSigner key, minOut), routers') =>
      let deadline :=
        match p_deadline params with Some d => d | None => now / 1000 + 1200 end in
      (submitResult r,
       [{| sub_chainId := p_chainId params; sub_amountIn := p_amount params;
           sub_amountOutMin := minOut; sub_deadline := deadline; sub_signer := key |}],
       routers')
  end.

(** [WalletService.executeSwap]; [wallets] is the chainId -> signer map,
    [now] the clock ([Date.now()]), [routers] the router cache of the
    shared [nineMMService].  Returns the result, the submissions and the
    cache afterwards.  Each failure stands for the message of the error
    caught. *)
Definition executeSwap (wallets : gmap Z string) (now : Z) (params : I9MMSwapParams)
  (r : Remote) (routers : gmap Z NineMM.Runner) : ITransactionResult * list Submission * gmap Z NineMM.Runner :=
  match wallets !! p_chainId params with
  | None => (txFailure "No wallet connected for chain", [], routers)
  | Some wallet =>
      if negb (checkGasBalance r) then (txFailure "Insufficient balance for gas", [], routers)
      else
        match aggregatorResult r with
        | Failure _ msg => (txFailure "Failed to get quote", [], routers)
        | Success agg =>
            let best := bestQuote agg in
            if Aggregator.isNineMM best
               || Aggregator.includes Aggregator.nineMMChains (p_chainId params)
            then
              let '(h, subs, routers') := nineMMExecuteSwap now params wallet r routers in
              match h with
              | Some hash =>
                  if hasProvider r && negb (receiptOk r)
                  then (txFailure "Transaction confirmation failed", subs, routers')
                  else ({| success := true; txHash := Some hash; error := None;
                           dexUsed := Some (dexProtocol best) |}, subs, routers')
              | None => (txFailure "Failed to execute 9MM swap", subs, routers')
              end
            else (txFailure "Swap execution not implemented", [], routers)
        end
  end.

(** The re-quote [NineMM.executeSwap] starts with: [getSwapQuote] over
    the router cache. *)
Definition nineMMReQuote (params : I9MMSwapParams) (r : Remote) (routers : gmap Z NineMM.Runner)
  : option (Z * Z) :=
  fst (NineMM.getSwapQuote (nineMMHasProvider r) (amountsOut r) (p_chainId params)
         (p_slippage params) routers).

Definition swapResult (o : ITransactionResult * list Submission * gmap Z NineMM.Runner)
  : ITransactionResult := fst (fst o).
Definition swapSubmissions (o : ITransactionResult * list Submission * gmap Z NineMM.Runner)
  : list Submission := snd (fst o).

End Executor.

(* ------------------------------------------------------------------ *)
(** ** A swap with a stale quote *)

Module ExecScenario.
Import Aggregator Scenario.

(** A swap on PulseChain whose aggregated best quote is valid until
    t = 30000 ms, executed at t = 100000 ms, by the signer "0xkey" whose
    earlier [addLiquidity] cached a router bound to it. *)
Definition execWallets : gmap Z string := {[ 369 := "0xkey" ]}.

Definition execParams : Executor.I9MMSwapParams :=
  {| Executor.p_chainId := 369; Executor.p_amount := 1000000000;
     Executor.p_slippage := Double.lit 5 1; Executor.p_deadline := None |}.

Definition execRemote : Executor.Remote :=
  {| Executor.hasProvider := true;
     Executor.nativeBalance := e18;
     Executor.aggregatorResult := getBestQuote configs adapters 369;
     Executor.nineMMHasProvider := fun _ => true;
     Executor.amountsOut := Some (2000 * e18);
     Executor.submitResult := Some "0xhash";
     Executor.receiptOk := true |}.

Definition execRouters : gmap Z NineMM.Runner :=
  snd (NineMM.addLiquidity (fun _ => true) 369 "0xkey" ∅).

Definition execNow : Z := 100000.

End ExecScenario.

(* ------------------------------------------------------------------ *)
(** ** UserService: listing active users, loading a user's wallet *)

Module UserQueries.
Import Sessions.

(** Comparator [(a, b) => b.lastActive.getTime() - a.lastActive.getTime()]. *)
Definition byRecency (a b : IUser) : Z := lastActive b - lastActive a.

(** Stable [Array.prototype.sort] as an insertion sort (as
    [Compare.sortBy]). *)
Fixpoint insertUser (x : IUser) (l : list IUser) : list IUser :=
  match l with
  | [] => [x]
  | y :: ys => if byRecency y x <? 0 then y :: insertUser x ys else x :: y :: ys
  end.

Fixpoint sortUsers (l : list IUser) : list IUser :=
  match l with
  | [] => []
  | x :: xs => insertUser x (sortUsers xs)
  end.

(** [getActiveUsers]; [values] is [Array.from(this.users.values())],
    the users in the Map's insertion order. *)
Definition getActiveUsers (now : Z) (values : list IUser) : list IUser :=
  sortUsers (filter (isSessionActive now) values).

(** [initializeUserWallet(userId)]: loads the user's key into the shared
    [walletService]; [inl] is the thrown message. *)
Definition initializeUserWallet (userId : string) (st : State) : string + State :=
  match userWallets st !! userId with
  | None => inl "User wallet not found"
  | Some w =>
      inr (replaceSecrets st (userWallets st)
             (importWallet (privateKey w) (chainIds w) (connectedWallets st)))
  end.

(** The order [getActiveUsers] produces: [a] before [b]. *)
Definition moreRecent (a b : IUser) : Prop := lastActive b <= lastActive a.

End UserQueries.

(* ------------------------------------------------------------------ *)
(** ** Concrete per-chain quotes *)

Module CompareScenario.
Import Compare.

(** Chains 369 and 146 both quote 7, chain 8453 quotes 5. *)
Definition tiedQuotes (c : Z) : option I9MMSwapQuote :=
  Some {| chainId := c; toAmount9 := if c =? 8453 then 5 else 7; toAmountMin9 := 0 |}.

End CompareScenario.

(* ================================================================== *)
(** * Properties *)

(* ------------------------------------------------------------------ *)
(** ** Doubles: order and rounding *)

Module DoubleFacts.
Import Double.
Local Open Scope Z_scope.

Lemma SFltb_nan_l y : SFltb S754_nan y = false.
Proof. reflexivity. Qed.
Lemma SFltb_nan_r x : SFltb x S754_nan = false.
Proof. destruct x; reflexivity. Qed.

Lemma SFltb_key x y : x <> S754_nan -> y <> S754_nan ->
  SFltb x y = true <-> keylt (key x) (key y).
Proof.
  intros Hx Hy.
  destruct x as [sx|sx| |sx mx ex]; [| |congruence|];
  destruct y as [sy|sy| |sy my ey]; try congruence;
  try destruct sx; try destruct sy; unfold SFltb, SFcompare; simpl;
  try (split; [discriminate|lia]); try (split; [intros _; lia|reflexivity]).
  - change (Pos.compare_cont Eq mx my) with (Pos.compare mx my).
    destruct (Z.compare_spec ex ey); [subst|..];
      try (destruct (Pos.compare_spec mx my)); simpl; split; intros; try lia; try discriminate; try reflexivity.
  - change (Pos.compare_cont Eq mx my) with (Pos.compare mx my).
    destruct (Z.compare_spec ex ey); [subst|..];
      try (destruct (Pos.compare_spec mx my)); simpl; split; intros; try lia; try discriminate; try reflexivity.
Qed.

Lemma SFltb_not_nan x y : SFltb x y = true -> x <> S754_nan /\ y <> S754_nan.
Proof. intros H. split; intros ->; [rewrite SFltb_nan_l in H|rewrite SFltb_nan_r in H]; discriminate. Qed.

Lemma SFltb_trans x y z : SFltb x y = true -> SFltb y z = true -> SFltb x z = true.
Proof.
  intros H1 H2.
  destruct (SFltb_not_nan _ _ H1) as [Hx Hy]. destruct (SFltb_not_nan _ _ H2) as [_ Hz].
  apply SFltb_key in H1; [|assumption..]. apply SFltb_key in H2; [|assumption..].
  apply SFltb_key; [assumption..|].
  destruct (key x) as [[a1 a2] a3], (key y) as [[b1 b2] b3], (key z) as [[c1 c2] c3].
  simpl in *. lia.
Qed.

Lemma SFltb_irrefl x : SFltb x x = false.
Proof.
  destruct (SFltb x x) eqn:H; [|reflexivity].
  destruct (SFltb_not_nan _ _ H) as [Hx _].
  apply SFltb_key in H; [|assumption..].
  destruct (key x) as [[a1 a2] a3]. simpl in H. lia.
Qed.

Lemma iter_pos_nat {A : Type} (f : A -> A) (p : positive) (x : A) :
  SpecFloat.iter_pos f p x = Nat.iter (Pos.to_nat p) f x.
Proof.
  revert x. induction p as [p IH|p IH|]; intros x; cbn [SpecFloat.iter_pos].
  - rewrite IH, IH, Pos2Nat.inj_xI, Nat.iter_succ_r, <- Nat.iter_add.
    f_equal. lia.
  - rewrite IH, IH, Pos2Nat.inj_xO, <- Nat.iter_add. f_equal. lia.
  - reflexivity.
Qed.

Lemma shr_1_nonneg (m : Z) (r s : bool) : 0 <= m ->
  shr_1 {| shr_m := m; shr_r := r; shr_s := s |} =
  {| shr_m := Z.div2 m; shr_r := Z.odd m; shr_s := r || s |}.
Proof. intros H. destruct m as [|[p|p|]|p]; try reflexivity. lia. Qed.

Lemma iter_shr (k : nat) (M : Z) : 0 <= M ->
  shr_m (Nat.iter k shr_1 {| shr_m := M; shr_r := false; shr_s := false |}) = M / 2 ^ Z.of_nat k /\
  (M mod 2 ^ Z.of_nat k = 0 ->
   shr_r (Nat.iter k shr_1 {| shr_m := M; shr_r := false; shr_s := false |}) = false /\
   shr_s (Nat.iter k shr_1 {| shr_m := M; shr_r := false; shr_s := false |}) = false).
Proof.
  intros HM. induction k as [|k IH].
  - simpl. rewrite Z.div_1_r. auto.
  - rewrite Nat.iter_succ.
    destruct (Nat.iter k shr_1 {| shr_m := M; shr_r := false; shr_s := false |}) as [m r s].
    simpl in IH. destruct IH as [Hm Hrs]. subst m.
    assert (Hp : 0 < 2 ^ Z.of_nat k) by (apply Z.pow_pos_nonneg; lia).
    rewrite shr_1_nonneg by (apply Z.div_pos; lia). cbn [shr_m shr_r shr_s].
    rewrite Nat2Z.inj_succ, Z.pow_succ_r by lia.
    split.
    + rewrite Z.div2_div, Z.div_div by lia. f_equal. lia.
    + intros H0.
      assert (HM' : M = 2 ^ Z.of_nat k * (2 * (M / (2 * 2 ^ Z.of_nat k)))).
      { pose proof (Z.div_mod M (2 * 2 ^ Z.of_nat k)) as D. rewrite H0 in D. lia. }
      assert (H1 : M mod 2 ^ Z.of_nat k = 0) by (rewrite HM', Z.mul_comm, Z.mod_mul; lia).
      assert (H2 : M / 2 ^ Z.of_nat k = 2 * (M / (2 * 2 ^ Z.of_nat k))).
      { rewrite HM' at 1. rewrite Z.mul_comm, Z.div_mul; lia. }
      destruct (Hrs H1) as [-> ->]. rewrite H2, Z.odd_mul. simpl. auto.
Qed.

Lemma digits2_pos_size (p : positive) : digits2_pos p = Pos.size p.
Proof. induction p as [p IH|p IH|]; simpl; try rewrite IH; reflexivity. Qed.

Lemma size_bounds (p : positive) :
  2 ^ (Zpos (Pos.size p) - 1) <= Zpos p < 2 ^ Zpos (Pos.size p).
Proof.
  pose proof (Pos.size_gt p) as H1. pose proof (Pos.size_le p) as H2.
  apply Pos2Z.pos_lt_pos in H1. apply Pos2Z.pos_le_pos in H2.
  rewrite Pos2Z.inj_pow in H1, H2. rewrite (Pos2Z.inj_xO p) in H2.
  split; [|exact H1].
  assert (E : 2 ^ Zpos (Pos.size p) = 2 * 2 ^ (Zpos (Pos.size p) - 1)).
  { rewrite <- Z.pow_succ_r by lia. f_equal. lia. }

  lia.
Qed.

Lemma rne_cases (m : Z) (l : location) :
  round_nearest_even m l = m \/ round_nearest_even m l = m + 1.
Proof.
  destruct l as [|[| |]]; simpl; auto. destruct (Z.even m); auto.
Qed.

Lemma fexp64 (x : Z) : fexp 53 1024 x = Z.max (x - 53) (-1074).
Proof. reflexivity. Qed.

Lemma Zdigits2_pos (p : positive) : Zdigits2 (Zpos p) = Zpos (Pos.size p).
Proof. simpl. rewrite digits2_pos_size. reflexivity. Qed.

Lemma round_aux_spec (M : positive) (E : Z) :
  exists k q, 0 <= k /\
    Zpos M / 2 ^ k <= q <= Zpos M / 2 ^ k + 1 /\
    (Zpos M mod 2 ^ k = 0 -> q = Zpos M / 2 ^ k) /\
    (k = 0 \/ 2 ^ (52 + k) <= Zpos M \/ E + k = -1074) /\
    match binary_round_aux 53 1024 false (Zpos M) E loc_Exact with
    | S754_zero false => q = 0
    | S754_finite false m e => E + k <= e /\ Zpos m * 2 ^ (e - (E + k)) = q
    | S754_infinity false => 971 <= E + k
    | _ => False
    end.
Proof.
  pose proof (size_bounds M) as HB.
  unfold binary_round_aux. unfold shr_fexp at 1. rewrite Zdigits2_pos, fexp64.
  cbn [shr_record_of_loc].
  destruct (Z.max (Zpos (Pos.size M) + E - 53) (-1074) - E) as [|p|p] eqn:En.
  - (* no shift *)
    cbn [shr loc_of_shr_record shr_m round_nearest_even].
    exists 0, (Zpos M). rewrite Z.pow_0_r, Z.div_1_r, Z.mod_1_r.
    split; [lia|]. split; [lia|]. split; [auto|]. split; [auto|].
    unfold shr_fexp. rewrite Zdigits2_pos, fexp64, En. cbn [shr shr_record_of_loc shr_m].
    destruct (Z.leb_spec E (1024 - 53)).
    + rewrite Z.add_0_r, Z.sub_diag, Z.pow_0_r. lia.
    + lia.
  - (* shift by p bits *)
    cbn [shr]. rewrite iter_pos_nat.
    destruct (iter_shr (Pos.to_nat p) (Zpos M) ltac:(lia)) as [Hm Hrs].
    rewrite positive_nat_Z in Hm, Hrs.
    destruct (Nat.iter (Pos.to_nat p) shr_1 _) as [m r s]. cbn [shr_m shr_r shr_s] in *.
    subst m.
    assert (Hpos : 0 < 2 ^ Zpos p) by (apply Z.pow_pos_nonneg; lia).
    assert (Hq : Zpos M / 2 ^ Zpos p <=
                   round_nearest_even (Zpos M / 2 ^ Zpos p)
                     (loc_of_shr_record {| shr_m := Zpos M / 2 ^ Zpos p; shr_r := r; shr_s := s |})
                 <= Zpos M / 2 ^ Zpos p + 1 /\
                 (Zpos M mod 2 ^ Zpos p = 0 ->
                  round_nearest_even (Zpos M / 2 ^ Zpos p)
                     (loc_of_shr_record {| shr_m := Zpos M / 2 ^ Zpos p; shr_r := r; shr_s := s |})
                  = Zpos M / 2 ^ Zpos p)).
    { split.
      - destruct (rne_cases (Zpos M / 2 ^ Zpos p)
          (loc_of_shr_record {| shr_m := Zpos M / 2 ^ Zpos p; shr_r := r; shr_s := s |})) as [-> | ->];
          lia.
      - intros H0. destruct (Hrs H0) as [-> ->]. reflexivity. }
    revert Hq.
    generalize (round_nearest_even (Zpos M / 2 ^ Zpos p)
                  (loc_of_shr_record {| shr_m := Zpos M / 2 ^ Zpos p; shr_r := r; shr_s := s |})).
    intros q [Hq1 Hq2].
    exists (Zpos p), q.
    split; [lia|]. split; [exact Hq1|]. split; [exact Hq2|].
    assert (Hemin : -1074 <= E + Zpos p) by lia.
    assert (Hd : Zpos (Pos.size M) <= 53 + Zpos p) by lia.
    assert (Hlt : Zpos M / 2 ^ Zpos p < 2 ^ 53).
    { apply Z.div_lt_upper_bound; [exact Hpos|].
      rewrite <- Z.pow_add_r by lia.
      apply (Z.lt_le_trans _ _ _ (proj2 HB)). apply Z.pow_le_mono_r; lia. }
    split.
    { destruct (Z.max_spec (Zpos (Pos.size M) + E - 53) (-1074)) as [[_ Hx]|[_ Hx]]; rewrite Hx in En.
      - right; right. lia.
      - right; left. replace (52 + Zpos p) with (Zpos (Pos.size M) - 1) by lia. exact (proj1 HB). }
    unfold shr_fexp. cbn [shr_record_of_loc]. rewrite fexp64.
    destruct q as [|qp|qp].
    + cbn [Zdigits2].
      destruct (Z.max (0 + (E + Zpos p) - 53) (-1074) - (E + Zpos p)) as [|p2|p2] eqn:E2;
        [| lia |]; reflexivity.
    + rewrite Zdigits2_pos. pose proof (size_bounds qp) as HBq.
      assert (Hs : Zpos (Pos.size qp) <= 54).
      { destruct (Z.le_gt_cases (Zpos (Pos.size qp)) 54) as [|Hc]; [assumption|].
        assert (2 ^ 54 <= 2 ^ (Zpos (Pos.size qp) - 1)) by (apply Z.pow_le_mono_r; lia).
        lia. }
      destruct (Z.max (Zpos (Pos.size qp) + (E + Zpos p) - 53) (-1074) - (E + Zpos p))
        as [|p2|p2] eqn:E2.
      * cbn [shr shr_m]. destruct (Z.leb_spec (E + Zpos p) (1024 - 53)).
        -- rewrite Z.sub_diag, Z.pow_0_r. lia.
        -- lia.
      * assert (p2 = 1%positive) by lia. subst p2.
        assert (Zpos (Pos.size qp) = 54) by lia.
        assert (qp = 9007199254740992%positive) by (rewrite H in HBq; simpl in HBq; lia).
        subst qp. cbn [shr SpecFloat.iter_pos shr_1 shr_m].
        destruct (Z.leb_spec (E + Zpos p + 1) (1024 - 53)).
        -- replace (E + Zpos p + 1 - (E + Zpos p)) with 1 by lia. split; [lia|reflexivity].
        -- lia.
      * cbn [shr shr_m]. destruct (Z.leb_spec (E + Zpos p) (1024 - 53)).
        -- rewrite Z.sub_diag, Z.pow_0_r. lia.
        -- lia.
    + pose proof (Z.div_pos (Zpos M) (2 ^ Zpos p)). lia.
  - (* negative shift: no shift *)
    cbn [shr loc_of_shr_record shr_m round_nearest_even].
    exists 0, (Zpos M). rewrite Z.pow_0_r, Z.div_1_r, Z.mod_1_r.
    split; [lia|]. split; [lia|]. split; [auto|]. split; [auto|].
    unfold shr_fexp. rewrite Zdigits2_pos, fexp64, En. cbn [shr shr_record_of_loc shr_m].
    destruct (Z.leb_spec E (1024 - 53)).
    + rewrite Z.add_0_r, Z.sub_diag, Z.pow_0_r. lia.
    + lia.
Qed.

Lemma two_neq_0 : ~ inject_Z 2 == 0.
Proof. intros H. vm_compute in H. discriminate H. Qed.

Lemma P2_split (e g : Z) : g <= e -> (P2 e == P2 g * inject_Z (2 ^ (e - g)))%Q.
Proof.
  intros H. unfold P2. rewrite Zpower_Qpower by lia. rewrite <- Qpower_plus by exact two_neq_0.
  replace (g + (e - g))%Z with e by ring. reflexivity.
Qed.

Lemma P2_pos (e : Z) : (0 < P2 e)%Q.
Proof. apply Qpower_0_lt. reflexivity. Qed.

Lemma Qle_common (a b e f g : Z) : g <= e -> g <= f ->
  ((inject_Z a * P2 e <= inject_Z b * P2 f)%Q <-> a * 2 ^ (e - g) <= b * 2 ^ (f - g)).
Proof.
  intros He Hf. rewrite (P2_split e g He), (P2_split f g Hf).
  assert (E1 : (inject_Z a * (P2 g * inject_Z (2 ^ (e - g))) == inject_Z (a * 2 ^ (e - g)) * P2 g)%Q)
    by (rewrite inject_Z_mult; ring).
  assert (E2 : (inject_Z b * (P2 g * inject_Z (2 ^ (f - g))) == inject_Z (b * 2 ^ (f - g)) * P2 g)%Q)
    by (rewrite inject_Z_mult; ring).
  rewrite E1, E2, Qmult_le_r by apply P2_pos. rewrite <- Zle_Qle. reflexivity.
Qed.

Lemma Qeq_common (a b e f g : Z) : g <= e -> g <= f ->
  ((inject_Z a * P2 e == inject_Z b * P2 f)%Q <-> a * 2 ^ (e - g) = b * 2 ^ (f - g)).
Proof.
  intros He Hf. split.
  - intros H. apply Z.le_antisymm; [apply (Qle_common a b e f g He Hf) | apply (Qle_common b a f e g Hf He)];
      rewrite H; apply Qle_refl.
  - intros H. apply Qle_antisym; [apply (Qle_common a b e f g He Hf) | apply (Qle_common b a f e g Hf He)]; lia.
Qed.





















Lemma Qle_int (a b : Z) : a <= b -> (inject_Z a <= inject_Z b)%Q.
Proof. intros H. rewrite <- Zle_Qle. exact H. Qed.



Lemma SFleb_ltb x y : x <> S754_nan -> y <> S754_nan -> SFleb y x = negb (SFltb x y).
Proof.
  intros Hx Hy.
  destruct x as [sx|sx| |sx mx ex]; [| |congruence|];
  destruct y as [sy|sy| |sy my ey]; try congruence;
  try destruct sx; try destruct sy; unfold SFleb, SFltb, SFcompare; try reflexivity.
  - rewrite (Z.compare_antisym ex ey). change (Pos.compare_cont Eq my mx) with (Pos.compare my mx).
    change (Pos.compare_cont Eq mx my) with (Pos.compare mx my). rewrite (Pos.compare_antisym mx my).
    destruct (ex ?= ey), (Pos.compare mx my); reflexivity.
  - rewrite (Z.compare_antisym ex ey). change (Pos.compare_cont Eq my mx) with (Pos.compare my mx).
    change (Pos.compare_cont Eq mx my) with (Pos.compare mx my). rewrite (Pos.compare_antisym mx my).
    destruct (ex ?= ey), (Pos.compare mx my); reflexivity.
Qed.

Lemma round_aux_not_nan (sx : bool) (M : positive) (E : Z) :
  binary_round_aux 53 1024 sx (Zpos M) E loc_Exact <> S754_nan.
Proof.
  pose proof (round_aux_spec M E) as (k & q & _ & _ & _ & _ & H).
  assert (Eq : binary_round_aux 53 1024 sx (Zpos M) E loc_Exact =
    match binary_round_aux 53 1024 false (Zpos M) E loc_Exact with
    | S754_zero _ => S754_zero sx | S754_finite _ m e => S754_finite sx m e
    | S754_infinity _ => S754_infinity sx | S754_nan => S754_nan end).
  { unfold binary_round_aux.
    destruct (shr_fexp 53 1024 (Zpos M) E loc_Exact) as [mrs' e'].
    destruct (shr_fexp 53 1024 (round_nearest_even (shr_m mrs') (loc_of_shr_record mrs')) e' loc_Exact)
      as [mrs'' e''].
    destruct (shr_m mrs''); [reflexivity| |reflexivity]. destruct (e'' <=? 1024 - 53); reflexivity. }
  rewrite Eq. destruct (binary_round_aux 53 1024 false (Zpos M) E loc_Exact) as [[]|[]| |[] m e];
    try contradiction; discriminate.
Qed.

Lemma of_Z_not_nan (n : Z) : Double.of_Z n <> S754_nan.
Proof.
  unfold Double.of_Z, binary_normalize. destruct n as [|p|p]; [discriminate| |];
    unfold binary_round; destruct (shl_align p 0 _); apply round_aux_not_nan.
Qed.

End DoubleFacts.

(* ------------------------------------------------------------------ *)
(** ** Aggregator *)

Module AggregatorFacts.
Import Aggregator.

Lemma parseAmount_not_nan (q : ISwapQuote) : parseAmount q <> S754_nan.
Proof. apply DoubleFacts.of_Z_not_nan. Qed.

Lemma ltb_lt_nlt_trans (x y z : ISwapQuote) :
  SFltb (parseAmount x) (parseAmount y) = true -> SFltb (parseAmount z) (parseAmount y) = false ->
  SFltb (parseAmount x) (parseAmount z) = true.
Proof.
  intros H1 H2.
  pose proof (parseAmount_not_nan x) as Nx. pose proof (parseAmount_not_nan y) as Ny.
  pose proof (parseAmount_not_nan z) as Nz.
  apply DoubleFacts.SFltb_key in H1; [|assumption..].
  assert (H3 : ~ Double.keylt (Double.key (parseAmount z)) (Double.key (parseAmount y))).
  { rewrite <- DoubleFacts.SFltb_key by assumption. congruence. }
  apply DoubleFacts.SFltb_key; [assumption..|].
  destruct (Double.key (parseAmount x)) as [[a1 a2] a3], (Double.key (parseAmount y)) as [[b1 b2] b3],
    (Double.key (parseAmount z)) as [[c1 c2] c3].
  simpl in *. lia.
Qed.

Lemma reduceBest_in (q : ISwapQuote) (qs : list ISwapQuote) :
  In (reduceBest q qs) (q :: qs).
Proof.
  unfold reduceBest. revert q. induction qs as [|a qs IH]; intros q; simpl; [auto|].
  destruct (Double.ltb (parseAmount q) (parseAmount a)).
  - specialize (IH a). simpl in IH. tauto.
  - specialize (IH q). simpl in IH. tauto.
Qed.

(** No quote parses to a double strictly above the one [reduce] keeps. *)
Lemma reduceBest_not_lt (q : ISwapQuote) (qs : list ISwapQuote) :
  forall x, In x (q :: qs) -> SFltb (parseAmount (reduceBest q qs)) (parseAmount x) = false.
Proof.
  unfold reduceBest, Double.ltb. revert q. induction qs as [|a qs IH]; intros q x Hx; cbn [fold_left].
  - destruct Hx as [<-|[]]. apply DoubleFacts.SFltb_irrefl.
  - set (red := fun b => fold_left (fun best current =>
      if SFltb (parseAmount best) (parseAmount current) then current else best) qs b).
    change (SFltb (parseAmount (red (if SFltb (parseAmount q) (parseAmount a) then a else q)))
              (parseAmount x) = false).
    destruct (SFltb (parseAmount q) (parseAmount a)) eqn:E.
    + destruct Hx as [<-|Hx].
      * destruct (SFltb (parseAmount (red a)) (parseAmount q)) eqn:F; [|reflexivity].
        pose proof (DoubleFacts.SFltb_trans _ _ _ F E) as G.
        assert (Ha : SFltb (parseAmount (red a)) (parseAmount a) = false) by (apply IH; left; reflexivity).
        congruence.
      * apply IH. exact Hx.
    + destruct Hx as [<-|[<-|Hx]].
      * apply IH. left. reflexivity.
      * destruct (SFltb (parseAmount (red q)) (parseAmount a)) eqn:F; [|reflexivity].
        pose proof (ltb_lt_nlt_trans _ _ _ F E) as G.
        assert (Hq : SFltb (parseAmount (red q)) (parseAmount q) = false) by (apply IH; left; reflexivity).
        congruence.
      * apply IH. right. exact Hx.
Qed.

(** [parseFloat(x.toAmount) <= parseFloat(best.toAmount)] for every
    quote [x]. *)
Lemma reduceBest_max (q : ISwapQuote) (qs : list ISwapQuote) :
  forall x, In x (q :: qs) -> Double.leb (parseAmount x) (parseAmount (reduceBest q qs)) = true.
Proof.
  intros x Hx. unfold Double.leb.
  rewrite DoubleFacts.SFleb_ltb by apply parseAmount_not_nan.
  rewrite (reduceBest_not_lt q qs x Hx). reflexivity.
Qed.

Lemma collectValid_in (f : DEXProtocol -> option ISwapQuote) (ds : list DEXProtocol) q :
  In q (collectValid f ds) <-> exists d, In d ds /\ f d = Some q.
Proof.
  induction ds as [|d ds IH]; simpl.
  - split; [tauto|]. intros (d & [] & _).
  - destruct (f d) eqn:E; simpl; rewrite IH; split.
    + intros [<-|(d' & Hin & Hf)]; eauto.
    + intros (d' & [<-|Hin] & Hf); [left; congruence | right; eauto].
    + intros (d' & Hin & Hf); eauto.
    + intros (d' & [<-|Hin] & Hf); [congruence | eauto].
Qed.

Lemma collectValid_nil (f : DEXProtocol -> option ISwapQuote) (ds : list DEXProtocol) :
  collectValid f ds = [] <-> forall d, In d ds -> f d = None.
Proof.
  split.
  - intros H d Hd. destruct (f d) as [q|] eqn:E; [|reflexivity].
    assert (In q (collectValid f ds)) by (apply collectValid_in; eauto).
    rewrite H in *. contradiction.
  - intros H. destruct (collectValid f ds) as [|q qs] eqn:E; [reflexivity|].
    assert (Hq : In q (collectValid f ds)) by (rewrite E; simpl; auto).
    apply collectValid_in in Hq as (d & Hd & Hf). rewrite H in Hf by exact Hd. discriminate.
Qed.

(** Shape of a successful result: the quotes kept, and the selected quote
    being the [reduce] maximum or, on a 9MM chain, the 9MM quote that
    passed the tolerance. *)
Lemma getBestQuote_success_shape (dexConfigs : list IDEXAPIConfig)
  (f : DEXProtocol -> option ISwapQuote) (c : Z) (agg : IDEXAggregatorQuote) :
  getBestQuote dexConfigs f c = Success agg ->
  exists q qs,
    collectValid f (orderedDEXs dexConfigs c) = q :: qs /\
    allQuotes agg = q :: qs /\
    recommendedDEX agg = dexProtocol (bestQuote agg) /\
    (bestQuote agg = reduceBest q qs \/
     (isNineMM (bestQuote agg) = true /\ In (bestQuote agg) (q :: qs) /\
      includes nineMMChains c = true /\
      withinTolerance (parseAmount (reduceBest q qs)) (parseAmount (bestQuote agg)) = true)).
Proof.
  intros H. unfold getBestQuote in H. cbv zeta in H.
  destruct (collectValid f (orderedDEXs dexConfigs c)) as [|q qs] eqn:E; [discriminate|].
  exists q, qs.
  destruct (includes nineMMChains c) eqn:Hc.
  2:{ injection H as <-. cbn [bestQuote allQuotes recommendedDEX]. auto. }
  destruct (find isNineMM (q :: qs)) as [n|] eqn:F.
  2:{ injection H as <-. cbn [bestQuote allQuotes recommendedDEX]. auto. }
  apply find_some in F as [Fin Fn].
  destruct (withinTolerance (parseAmount (reduceBest q qs)) (parseAmount n)) eqn:W;
    injection H as <-; cbn [bestQuote allQuotes recommendedDEX]; auto 10.
Qed.

(** * C1 *)
(** Claim C1 (as amended): amounts are compared as the doubles
    [parseFloat] returns.  In every successful result, [bestQuote] is in
    [allQuotes], and either every quote's parsed amount is [<=] the
    parsed amount of [bestQuote], or the chain is a 9MM chain, [bestQuote]
    is the 9MM quote, and some top quote (every parsed amount [<=] its
    own) passes [(top - nineMM) / top <= 0.01] evaluated in doubles.  On
    the spec's scenario (2000e18, 1950e18, 1975e18 with 9MM at 1975e18)
    the tolerance test fails and the 2000e18 quote is selected. *)
Theorem getBestQuote_best_or_preferred :
  (forall (dexConfigs : list IDEXAPIConfig) (f : DEXProtocol -> option ISwapQuote)
          (c : Z) (agg : IDEXAggregatorQuote),
     getBestQuote dexConfigs f c = Success agg ->
     In (bestQuote agg) (allQuotes agg) /\
     ((forall x, In x (allQuotes agg) ->
         Double.leb (parseAmount x) (parseAmount (bestQuote agg)) = true) \/
      (dexProtocol (bestQuote agg) = NINE_MM /\ includes nineMMChains c = true /\
       exists top, In top (allQuotes agg) /\
         (forall x, In x (allQuotes agg) -> Double.leb (parseAmount x) (parseAmount top) = true) /\
         withinTolerance (parseAmount top) (parseAmount (bestQuote agg)) = true))) /\
  (exists agg,
     getBestQuote Scenario.configs Scenario.adapters 369 = Success agg /\
     bestQuote agg = Scenario.quote1inch /\
     withinTolerance (parseAmount Scenario.quote1inch) (parseAmount Scenario.quote9mm) = false).
Proof.
  split.
  - intros dexConfigs f c agg H.
    destruct (getBestQuote_success_shape dexConfigs f c agg H)
      as (q & qs & _ & Hall & _ & [Hb | (Hn & Hin & Hc & Hw)]); rewrite Hall.
    + split; [rewrite Hb; apply reduceBest_in|]. left. rewrite Hb. apply reduceBest_max.
    + split; [exact Hin|]. right. split; [apply DEXProtocol_eqb_spec; exact Hn|].
      split; [exact Hc|].
      exists (reduceBest q qs). split; [apply reduceBest_in|]. split; [apply reduceBest_max|].
      exact Hw.
  - eexists. split; [reflexivity|]. split; [reflexivity|].
    unfold Scenario.e18. vm_compute. reflexivity.
Qed.

(** Claim C1, refuted: with [toAmount] 1e18 from 1inch and 1e18 + 1 from
    ParaSwap (9MM failing), both parse to the same double and [reduce]
    keeps the first, 1e18, below the maximum.  With 100e18 from 1inch
    and 99e18 - 1 from 9MM, the exact difference is above 1%, but the
    double [(best - nineMM) / best] is 0.01 and 9MM is selected. *)
Lemma getBestQuote_float_selection :
  (exists agg,
     getBestQuote Scenario.configs Scenario.adaptersNearTie 369 = Success agg /\
     toAmount (bestQuote agg) = Scenario.e18 /\
     (exists x, In x (allQuotes agg) /\ toAmount (bestQuote agg) < toAmount x)) /\
  (exists agg,
     getBestQuote Scenario.configs Scenario.adaptersTolerance 369 = Success agg /\
     dexProtocol (bestQuote agg) = NINE_MM /\
     (forall x, In x (allQuotes agg) -> toAmount x <= 100 * Scenario.e18) /\
     Qlt (1 # 100) (inject_Z (100 * Scenario.e18 - toAmount (bestQuote agg))
                    / inject_Z (100 * Scenario.e18))).
Proof.
  split.
  - eexists. split; [reflexivity|]. split; [reflexivity|].
    exists (Scenario.mkQ PARASWAP (Scenario.e18 + 1)). split; [vm_compute; tauto|].
    vm_compute. reflexivity.
  - eexists. split; [reflexivity|]. split; [vm_compute; reflexivity|]. split.
    + intros x Hx. vm_compute in Hx.
      destruct Hx as [<-|[<-|[]]]; vm_compute; discriminate.
    + vm_compute. reflexivity.
Qed.

(** * C2 *)
(** Claim C2: in every successful result, [bestQuote] is an element of
    [allQuotes] and [recommendedDEX] is its venue. *)
Theorem getBestQuote_best_in_all (dexConfigs : list IDEXAPIConfig)
  (f : DEXProtocol -> option ISwapQuote) (c : Z) (agg : IDEXAggregatorQuote) :
  getBestQuote dexConfigs f c = Success agg ->
  In (bestQuote agg) (allQuotes agg) /\ recommendedDEX agg = dexProtocol (bestQuote agg).
Proof.
  intros H.
  destruct (getBestQuote_success_shape dexConfigs f c agg H)
    as (q & qs & _ & Hall & Hrec & [Hb | (_ & Hin & _)]); rewrite Hall; split; auto.
  rewrite Hb. apply reduceBest_in.
Qed.

(** * C4 *)
(** Claim C4: [getBestQuote] fails exactly when no queried adapter
    succeeds, with the "No valid quotes found from any DEX" error; a
    successful result keeps exactly the quotes of the adapters that
    succeeded (failing adapters are dropped).  On the three-venue scenario
    one failing adapter leaves a result built from the other two, and
    three failing adapters give the failure. *)
Theorem getBestQuote_fails_iff_no_quote :
  (forall (dexConfigs : list IDEXAPIConfig) (f : DEXProtocol -> option ISwapQuote) (c : Z),
     ((exists code msg, getBestQuote dexConfigs f c = Failure code msg) <->
      (forall d, In d (orderedDEXs dexConfigs c) -> f d = None)) /\
     ((forall d, In d (orderedDEXs dexConfigs c) -> f d = None) ->
      getBestQuote dexConfigs f c =
        Failure "AGGREGATOR_ERROR" "No valid quotes found from any DEX") /\
     (forall agg, getBestQuote dexConfigs f c = Success agg ->
      forall q, In q (allQuotes agg) <->
                exists d, In d (orderedDEXs dexConfigs c) /\ f d = Some q)) /\
  (exists agg, getBestQuote Scenario.configs Scenario.adaptersOneFails 369 = Success agg /\
     allQuotes agg = [Scenario.quote9mm; Scenario.quote1inch]) /\
  getBestQuote Scenario.configs Scenario.adaptersAllFail 369 =
    Failure "AGGREGATOR_ERROR" "No valid quotes found from any DEX".
Proof.
  split; [|split; [eexists; split; reflexivity | reflexivity]].
  intros dexConfigs f c.
  assert (Hnil : (forall d, In d (orderedDEXs dexConfigs c) -> f d = None) ->
                 getBestQuote dexConfigs f c =
                   Failure "AGGREGATOR_ERROR" "No valid quotes found from any DEX").
  { intros Hn. apply collectValid_nil in Hn. unfold getBestQuote. cbv zeta. rewrite Hn. reflexivity. }
  split; [|split; [exact Hnil|]].
  - split.
    + intros (code & msg & H). apply collectValid_nil.
      destruct (collectValid f (orderedDEXs dexConfigs c)) as [|q qs] eqn:E; [reflexivity|].
      unfold getBestQuote in H. cbv zeta in H. rewrite E in H. discriminate.
    + intros Hn. rewrite (Hnil Hn). eauto.
  - intros agg H q.
    destruct (getBestQuote_success_shape dexConfigs f c agg H) as (q0 & qs & E & Hall & _).
    rewrite Hall, <- E. apply collectValid_in.
Qed.

Lemma getBestQuote_best_or_preferred_witness :
  exists agg, getBestQuote Scenario.configs Scenario.adapters 369 = Success agg /\
    (forall x, In x (allQuotes agg) ->
       Double.leb (parseAmount x) (parseAmount (bestQuote agg)) = true).
Proof.
  eexists. split; [reflexivity|].
  destruct (proj2 (proj1 getBestQuote_best_or_preferred Scenario.configs Scenario.adapters 369 _ eq_refl))
    as [H | (Hn & _)]; [exact H | vm_compute in Hn; discriminate Hn].
Defined.

Lemma getBestQuote_best_in_all_witness :
  exists agg, getBestQuote Scenario.configs Scenario.adaptersOneFails 369 = Success agg /\
    In (bestQuote agg) (allQuotes agg).
Proof.
  eexists. split; [reflexivity|].
  apply (getBestQuote_best_in_all Scenario.configs Scenario.adaptersOneFails 369 _ eq_refl).
Defined.

Lemma getBestQuote_fails_iff_no_quote_witness :
  getBestQuote Scenario.configs Scenario.adaptersAllFail 1 =
    Failure "AGGREGATOR_ERROR" "No valid quotes found from any DEX".
Proof.
  destruct (proj1 getBestQuote_fails_iff_no_quote Scenario.configs Scenario.adaptersAllFail 1)
    as (_ & H & _).
  apply H. intros d _. reflexivity.
Defined.

End AggregatorFacts.

(* ------------------------------------------------------------------ *)
(** ** Minimum buy amount *)

Module SlippageFacts.
Import Slippage.
Open Scope Q_scope.

Lemma floor_bounds (x : Q) (lo hi : Z) :
  inject_Z lo <= x -> x <= inject_Z hi -> (lo <= Qfloor x <= hi)%Z.
Proof.
  intros H1 H2. split.
  - rewrite <- (Qfloor_Z lo). apply Qfloor_resp_le. exact H1.
  - rewrite <- (Qfloor_Z hi). apply Qfloor_resp_le. exact H2.
Qed.

Lemma floor_lt (x : Q) (hi : Z) : x < inject_Z hi -> (Qfloor x < hi)%Z.
Proof.
  intros H. pose proof (Qfloor_le x). rewrite Zlt_Qlt. eapply Qle_lt_trans; eauto.
Qed.







End SlippageFacts.

(* ------------------------------------------------------------------ *)
(** ** Swap execution *)

Module ExecutorFacts.
Import Executor.

(** [getSwapQuote] caches a provider-bound router on a miss and leaves a
    cached router in place. *)
Lemma getSwapQuote_cache (hp : Z -> bool) (ao : option Z) (c : Z) (s : spec_float)
  (routers : gmap Z NineMM.Runner) :
  (forall r, routers !! c = Some r -> snd (NineMM.getSwapQuote hp ao c s routers) = routers) /\
  (routers !! c = None -> forall q, fst (NineMM.getSwapQuote hp ao c s routers) = Some q ->
     snd (NineMM.getSwapQuote hp ao c s routers) !! c = Some NineMM.RProvider).
Proof.
  unfold NineMM.getSwapQuote, NineMM.getRouterContract. split.
  - intros r0 H. rewrite H.
    destruct (Aggregator.includes NineMM.deployedChains c), (hp c); try reflexivity.
    cbn [negb]. destruct ao as [a|]; [|reflexivity].
    destruct (Slippage.getSwapQuoteMin s a); reflexivity.
  - intros H q. rewrite H.
    destruct (Aggregator.includes NineMM.deployedChains c) eqn:Hd; cbn [negb]; [|discriminate].
    destruct (hp c) eqn:Hp; cbn [negb]; [|discriminate].
    destruct ao as [a|]; [|discriminate].
    destruct (Slippage.getSwapQuoteMin s a); [|discriminate].
    intros _. apply lookup_insert_eq.
Qed.

(** [NineMM.executeSwap] hands back a signer-bound router exactly when
    one was cached for the chain before the call and the re-quote
    succeeded. *)
Lemma nineMM_executeSwap_signer (hp : Z -> bool) (ao : option Z) (c : Z) (s : spec_float)
  (w : string) (routers : gmap Z NineMM.Runner) (key : string) (minOut : Z) :
  (exists routers', NineMM.executeSwap hp ao c s w routers = (Some (NineMM.RSigner key, minOut), routers'))
  <-> routers !! c = Some (NineMM.RSigner key) /\
      exists toAmt, fst (NineMM.getSwapQuote hp ao c s routers) = Some (toAmt, minOut).
Proof.
  destruct (getSwapQuote_cache hp ao c s routers) as [Hc Hm].
  unfold NineMM.executeSwap.
  destruct (NineMM.getSwapQuote hp ao c s routers) as [[[ta mo]|] r1] eqn:Q; cbn [fst snd] in *.
  - unfold NineMM.getRouterContract.
    destruct (routers !! c) as [r0|] eqn:E.
    + rewrite (Hc r0 eq_refl). rewrite E. split.
      * intros (routers' & H). injection H as -> -> _. split; [reflexivity|]. eauto.
      * intros (H & toAmt & H'). injection H as ->. injection H' as _ ->. eauto.
    + rewrite (Hm eq_refl (ta, mo) eq_refl). split.
      * intros (routers' & H). discriminate H.
      * intros (H & _). discriminate H.
  - split.
    + intros (routers' & H). discriminate H.
    + intros (_ & toAmt & H). discriminate H.
Qed.

(** * C5 *)
(** Claim C5 (as amended): [executeSwap] never reads the chosen quote's
    [validUntil], nor the clock except for the deadline.  When a wallet is
    connected for the chain, the gas check passes, the aggregator returns
    a result, and its best quote is 9MM or the chain is a 9MM chain:
    - if a router bound to a signer [key] was cached for the chain before
      the call (by an earlier [addLiquidity], [removeLiquidity] or
      [executeSwap]) and the 9MM re-quote succeeds, exactly one swap is
      submitted, signed with [key], and the call succeeds iff the
      submission returns a hash and, with a provider, the receipt comes;
    - otherwise (no router cached, a provider-bound one, or a failing
      re-quote) nothing is submitted and the call fails;
    - success and the number of submissions are the same at every
      clock reading. *)
Theorem executeSwap_submits_without_expiry_check
  (wallets : gmap Z string) (now : Z) (params : I9MMSwapParams) (r : Remote)
  (routers : gmap Z NineMM.Runner) (w : string) (agg : IDEXAggregatorQuote) :
  wallets !! p_chainId params = Some w ->
  checkGasBalance r = true ->
  aggregatorResult r = Success agg ->
  (Aggregator.isNineMM (bestQuote agg)
   || Aggregator.includes Aggregator.nineMMChains (p_chainId params)) = true ->
  (forall key toAmt minOut,
     routers !! p_chainId params = Some (NineMM.RSigner key) ->
     nineMMReQuote params r routers = Some (toAmt, minOut) ->
     swapSubmissions (executeSwap wallets now params r routers) =
       [{| sub_chainId := p_chainId params; sub_amountIn := p_amount params;
           sub_amountOutMin := minOut;
           sub_deadline := match p_deadline params with
                           | Some d => d | None => now / 1000 + 1200 end;
           sub_signer := key |}] /\
     success (swapResult (executeSwap wallets now params r routers)) =
       match submitResult r with
       | Some _ => negb (hasProvider r) || receiptOk r
       | None => false
       end) /\
  ((forall key, routers !! p_chainId params <> Some (NineMM.RSigner key)) \/
   nineMMReQuote params r routers = None ->
   swapSubmissions (executeSwap wallets now params r routers) = [] /\
   success (swapResult (executeSwap wallets now params r routers)) = false) /\
  (forall now' : Z,
     success (swapResult (executeSwap wallets now' params r routers)) =
       success (swapResult (executeSwap wallets now params r routers)) /\
     length (swapSubmissions (executeSwap wallets now' params r routers)) =
       length (swapSubmissions (executeSwap wallets now params r routers))).
Proof.
  intros Hw Hg Ha Hn.
  assert (Unf : forall t, executeSwap wallets t params r routers =
    let '(h, subs, routers') := nineMMExecuteSwap t params w r routers in
    match h with
    | Some hash =>
        if hasProvider r && negb (receiptOk r)
        then (txFailure "Transaction confirmation failed", subs, routers')
        else ({| success := true; txHash := Some hash; error := None;
                 dexUsed := Some (dexProtocol (bestQuote agg)) |}, subs, routers')
    | None => (txFailure "Failed to execute 9MM swap", subs, routers')
    end).
  { intros t. unfold executeSwap. rewrite Hw, Hg, Ha. cbn [negb]. rewrite Hn. reflexivity. }
  split; [|split].
  - intros key toAmt minOut Hk Hq.
    destruct (proj2 (nineMM_executeSwap_signer (nineMMHasProvider r) (amountsOut r) (p_chainId params)
                (p_slippage params) w routers key minOut) (conj Hk (ex_intro _ toAmt Hq)))
      as (routers' & X).
    rewrite Unf. unfold nineMMExecuteSwap. rewrite X.
    destruct (submitResult r), (hasProvider r), (receiptOk r); split; reflexivity.
  - intros Hno. rewrite Unf. unfold nineMMExecuteSwap.
    destruct (NineMM.executeSwap (nineMMHasProvider r) (amountsOut r) (p_chainId params)
                (p_slippage params) w routers) as [[[[|key] mo]|] routers'] eqn:X;
      try (split; reflexivity).
    exfalso.
    destruct (proj1 (nineMM_executeSwap_signer (nineMMHasProvider r) (amountsOut r) (p_chainId params)
                (p_slippage params) w routers key mo) (ex_intro _ routers' X)) as (Hk & toAmt & Hq).
    destruct Hno as [Hno|Hno]; [exact (Hno key Hk)|].
    unfold nineMMReQuote in Hno. congruence.
  - intros now'. rewrite !Unf. unfold nineMMExecuteSwap.
    destruct (NineMM.executeSwap (nineMMHasProvider r) (amountsOut r) (p_chainId params)
                (p_slippage params) w routers) as [[[[|key] mo]|] routers'];
      try (split; reflexivity).
    destruct (submitResult r), (hasProvider r), (receiptOk r); split; reflexivity.
Qed.

(** Claim C5, refuted: the best quote of the PulseChain scenario is valid
    until t = 30000; executed at t = 100000 by a signer whose
    [addLiquidity] cached the chain's router, [executeSwap] succeeds and
    submits one transaction instead of failing with QuoteExpired. *)
Lemma executeSwap_stale_quote_submitted :
  exists agg,
    aggregatorResult ExecScenario.execRemote = Success agg /\
    validUntil (bestQuote agg) < ExecScenario.execNow /\
    success (swapResult (executeSwap ExecScenario.execWallets ExecScenario.execNow
               ExecScenario.execParams ExecScenario.execRemote ExecScenario.execRouters)) = true /\
    length (swapSubmissions (executeSwap ExecScenario.execWallets ExecScenario.execNow
              ExecScenario.execParams ExecScenario.execRemote ExecScenario.execRouters)) = 1%nat.
Proof.
  eexists. split; [reflexivity|]. vm_compute. repeat split; reflexivity.
Qed.

Lemma executeSwap_submits_without_expiry_check_witness :
  length (swapSubmissions (executeSwap ExecScenario.execWallets ExecScenario.execNow
            ExecScenario.execParams ExecScenario.execRemote ExecScenario.execRouters)) = 1%nat.
Proof.
  destruct (aggregatorResult ExecScenario.execRemote) as [agg|code msg] eqn:Ha;
    [|vm_compute in Ha; discriminate Ha].
  destruct (nineMMReQuote ExecScenario.execParams ExecScenario.execRemote ExecScenario.execRouters)
    as [[ta mo]|] eqn:Hq; [|vm_compute in Hq; discriminate Hq].
  assert (Hn : (Aggregator.isNineMM (bestQuote agg)
     || Aggregator.includes Aggregator.nineMMChains 369) = true)
    by (apply orb_true_iff; right; reflexivity).
  assert (Hk : ExecScenario.execRouters !! 369 = Some (NineMM.RSigner "0xkey"))
    by (vm_compute; reflexivity).
  destruct (executeSwap_submits_without_expiry_check ExecScenario.execWallets ExecScenario.execNow
              ExecScenario.execParams ExecScenario.execRemote ExecScenario.execRouters "0xkey" agg
              eq_refl eq_refl Ha Hn) as (H1 & _ & _).
  rewrite (proj1 (H1 "0xkey" ta mo Hk Hq)). reflexivity.
Defined.

End ExecutorFacts.

(* ------------------------------------------------------------------ *)
(** ** Cross-chain comparison *)

Module CompareFacts.
Import Compare.

Definition descending (a b : I9MMSwapQuote) : Prop := toAmount9 b <= toAmount9 a.

Lemma insertBy_perm (x : I9MMSwapQuote) (l : list I9MMSwapQuote) :
  Permutation (insertBy x l) (x :: l).
Proof.
  induction l as [|y ys IH]; simpl; [auto|].
  destruct (compareFn y x <? 0); [|auto].
  eapply perm_trans; [apply perm_skip, IH|]. apply perm_swap.
Qed.

Lemma sortBy_perm (l : list I9MMSwapQuote) : Permutation (sortBy l) l.
Proof.
  induction l as [|x xs IH]; simpl; [auto|].
  eapply perm_trans; [apply insertBy_perm|]. auto.
Qed.

Lemma insertBy_hd (x y : I9MMSwapQuote) (l : list I9MMSwapQuote) :
  descending y x -> HdRel descending y l -> HdRel descending y (insertBy x l).
Proof.
  intros Hyx Hl. destruct l as [|z zs]; simpl; [auto|].
  destruct (compareFn z x <? 0); constructor; [inversion Hl; auto | exact Hyx].
Qed.

Lemma insertBy_sorted (x : I9MMSwapQuote) (l : list I9MMSwapQuote) :
  Sorted descending l -> Sorted descending (insertBy x l).
Proof.
  induction l as [|y ys IH]; intros Hs; simpl; [auto|].
  destruct (compareFn y x <? 0) eqn:E.
  - apply Z.ltb_lt in E. unfold compareFn in E.
    apply Sorted_inv in Hs as [Hs Hh]. constructor; [apply IH, Hs|].
    apply insertBy_hd; [unfold descending; lia | exact Hh].
  - apply Z.ltb_ge in E. unfold compareFn in E.
    constructor; [exact Hs|]. constructor. unfold descending. lia.
Qed.

Lemma sortBy_sorted (l : list I9MMSwapQuote) : Sorted descending (sortBy l).
Proof. induction l; simpl; auto using insertBy_sorted. Qed.

Lemma collectQuotes_in (f : Z -> option I9MMSwapQuote) (cs : list Z) q :
  In q (collectQuotes f cs) <-> exists c, In c cs /\ f c = Some q.
Proof.
  induction cs as [|c cs IH]; simpl.
  - split; [tauto|]. intros (c & [] & _).
  - destruct (f c) eqn:E; simpl; rewrite IH; split.
    + intros [<-|(c' & Hin & Hf)]; eauto.
    + intros (c' & [<-|Hin] & Hf); [left; congruence | right; eauto].
    + intros (c' & Hin & Hf); eauto.
    + intros (c' & [<-|Hin] & Hf); [congruence | eauto].
Qed.

(** * C6 *)
(** Claim C6 (as amended): [compareChainPrices] never fails: it returns
    the quotes of the chains whose [getSwapQuote] succeeded (a failing
    chain is omitted), ordered by descending [toAmount]; the list is empty
    exactly when every chain fails, and then [getBestChainForPair]
    returns [null]. *)
Theorem compareChainPrices_sorted_survivors (getSwapQuote : Z -> option I9MMSwapQuote) :
  Sorted descending (compareChainPrices getSwapQuote) /\
  Permutation (compareChainPrices getSwapQuote) (collectQuotes getSwapQuote supportedChains9MM) /\
  (forall q, In q (compareChainPrices getSwapQuote) <->
             exists c, In c supportedChains9MM /\ getSwapQuote c = Some q) /\
  (compareChainPrices getSwapQuote = [] <->
   forall c, In c supportedChains9MM -> getSwapQuote c = None) /\
  (getBestChainForPair getSwapQuote = None <->
   forall c, In c supportedChains9MM -> getSwapQuote c = None).
Proof.
  assert (Hin : forall q, In q (compareChainPrices getSwapQuote) <->
                exists c, In c supportedChains9MM /\ getSwapQuote c = Some q).
  { intros q. unfold compareChainPrices. rewrite <- collectQuotes_in.
    split; apply Permutation_in; [|symmetry]; apply sortBy_perm. }
  assert (Hnil : compareChainPrices getSwapQuote = [] <->
                 forall c, In c supportedChains9MM -> getSwapQuote c = None).
  { split.
    - intros H c Hc. destruct (getSwapQuote c) as [q|] eqn:E; [|reflexivity].
      assert (In q (compareChainPrices getSwapQuote)) by (apply Hin; eauto).
      rewrite H in *. contradiction.
    - intros H. destruct (compareChainPrices getSwapQuote) as [|q qs] eqn:E; [reflexivity|].
      destruct (proj1 (Hin q) (or_introl eq_refl)) as (c & Hc & Hf).
      rewrite H in Hf by exact Hc. discriminate. }
  split; [apply sortBy_sorted|]. split; [apply sortBy_perm|].
  split; [exact Hin|]. split; [exact Hnil|].
  rewrite <- Hnil. unfold getBestChainForPair.
  destruct (compareChainPrices getSwapQuote); split; congruence.
Qed.

(** Claim C6, refuted: when every chain fails the comparison does not
    fail; it returns the empty list. *)
Lemma compareChainPrices_all_fail_empty :
  compareChainPrices (fun _ => None) = [] /\ getBestChainForPair (fun _ => None) = None.
Proof. split; reflexivity. Qed.

End CompareFacts.

(* ------------------------------------------------------------------ *)
(** ** Session table *)

Module SessionFacts.
Import Sessions.

Lemma getUserByToken_no_token (now : Z) (t : string) (st : State) :
  sessionTokens st !! t = None -> getUserByToken now t st = (None, st).
Proof. intros H. unfold getUserByToken. rewrite H. reflexivity. Qed.

Lemma revokeSession_no_token (t : string) (st : State) :
  sessionTokens st !! t = None -> revokeSession t st = (false, st).
Proof. intros H. unfold revokeSession. rewrite H. reflexivity. Qed.

Lemma getUserByToken_tokens (now : Z) (t' : string) (st : State) :
  sessionTokens (snd (getUserByToken now t' st)) = sessionTokens st.
Proof.
  unfold getUserByToken. destruct (sessionTokens st !! t'); [|reflexivity].
  destruct (String.eqb _ _); [reflexivity|]. destruct (users st !! _); reflexivity.
Qed.

Lemma validateToken_tokens (v : string -> option string) (now : Z) (t' : string) (st : State) :
  sessionTokens (snd (validateToken v now t' st)) = sessionTokens st.
Proof.
  unfold validateToken. destruct (v t'); [|reflexivity]. destruct (users st !! _); reflexivity.
Qed.

(** A token absent from the table stays absent, unless it is issued again. *)
Lemma runOp_token_absent (t : string) (op : Op) (st : State) :
  issuesOtherToken t op = true -> sessionTokens st !! t = None ->
  sessionTokens (runOp op st) !! t = None.
Proof.
  intros Hop H. destruct op as [now t'|v now t'|t'|now|cs uid sid tok g now]; simpl.
  - rewrite getUserByToken_tokens. exact H.
  - rewrite validateToken_tokens. exact H.
  - unfold revokeSession. destruct (sessionTokens st !! t') as [uid|]; [|exact H].
    destruct (String.eqb uid ""); [exact H|]. destruct (users st !! uid); [|exact H].
    simpl. apply lookup_delete_None. auto.
  - apply map_lookup_filter_None_2. auto.
  - simpl in Hop. apply negb_true_iff, String.eqb_neq in Hop.
    rewrite lookup_insert_ne by congruence. exact H.
Qed.

Lemma runOps_token_absent (t : string) (ops : list Op) (st : State) :
  forallb (issuesOtherToken t) ops = true -> sessionTokens st !! t = None ->
  sessionTokens (runOps ops st) !! t = None.
Proof.
  unfold runOps. revert st. induction ops as [|op ops IH]; intros st Hops H; simpl in *; [exact H|].
  apply andb_true_iff in Hops as [Hop Hops]. apply IH; [exact Hops|].
  apply runOp_token_absent; assumption.
Qed.

(** [revokeSession] on a live token. *)
Lemma revokeSession_live (t : string) (st : State) (userId : string) (u : IUser) :
  sessionTokens st !! t = Some userId -> userId <> "" -> users st !! userId = Some u ->
  revokeSession t st =
    (true, {| users := delete userId (users st);
              userWallets := delete userId (userWallets st);
              sessionTokens := delete t (sessionTokens st);
              userSessions := delete (sessionId u) (userSessions st);
              connectedWallets := ∅ |}).
Proof.
  intros Ht Hne Hu. unfold revokeSession. rewrite Ht.
  destruct (String.eqb userId "") eqn:E; [apply String.eqb_eq in E; contradiction|].
  rewrite Hu. reflexivity.
Qed.

(** * C7 *)
(** Claim C7: on a live session (its token maps to a user id whose user
    exists), the first [revokeSession t] returns [true] and removes the
    wallet record, the user and the token; after it, through any sequence
    of operations that does not issue [t] again, [getUserByToken t]
    returns [null] and [revokeSession t] returns [false]. *)
Theorem revokeSession_terminal (t : string) (st : State) (userId : string) (u : IUser) :
  sessionTokens st !! t = Some userId -> userId <> "" -> users st !! userId = Some u ->
  fst (revokeSession t st) = true /\
  userWallets (snd (revokeSession t st)) !! userId = None /\
  users (snd (revokeSession t st)) !! userId = None /\
  sessionTokens (snd (revokeSession t st)) !! t = None /\
  (forall (ops : list Op) (now : Z), forallb (issuesOtherToken t) ops = true ->
     fst (getUserByToken now t (runOps ops (snd (revokeSession t st)))) = None /\
     fst (revokeSession t (runOps ops (snd (revokeSession t st)))) = false).
Proof.
  intros Ht Hne Hu. rewrite (revokeSession_live t st userId u Ht Hne Hu). simpl.
  split; [reflexivity|]. split; [apply lookup_delete_eq|]. split; [apply lookup_delete_eq|].
  assert (Hgone : delete t (sessionTokens st) !! t = None) by apply lookup_delete_eq.
  split; [exact Hgone|].
  intros ops now Hops.
  rewrite getUserByToken_no_token by (apply runOps_token_absent; [exact Hops | exact Hgone]).
  rewrite revokeSession_no_token by (apply runOps_token_absent; [exact Hops | exact Hgone]).
  split; reflexivity.
Qed.

Lemma revokeSession_terminal_witness :
  fst (revokeSession "tok_a" SessionScenario.staleState) = true /\
  fst (getUserByToken 5 "tok_a"
         (runOps [OpCleanup 1; OpGetUserByToken 2 "tok_a"]
                 (snd (revokeSession "tok_a" SessionScenario.staleState)))) = None.
Proof.
  destruct (revokeSession_terminal "tok_a" SessionScenario.staleState "user_a"
              (touch (mkUser "user_a" "session_a" 0 0 "0xaddr" true) 0)
              eq_refl ltac:(discriminate) eq_refl) as (H1 & _ & _ & _ & H5).
  split; [exact H1|]. apply (H5 [OpCleanup 1; OpGetUserByToken 2 "tok_a"] 5 eq_refl).
Defined.

Lemma userSessions_fold_deleted (expired : gmap string IUser) (sessions : gmap string string) :
  forall uid v, expired !! uid = Some v ->
  map_fold (fun _ u m => delete (sessionId u) m) sessions expired !! sessionId v = None.
Proof.
  apply (map_fold_weak_ind (fun r m => forall uid v, m !! uid = Some v -> r !! sessionId v = None)).
  - intros uid v H. rewrite lookup_empty in H. discriminate.
  - intros i x m r Hi IH uid v H. rewrite lookup_insert in H.
    destruct (decide (i = uid)) as [->|Hne].
    + injection H as <-. apply lookup_delete_eq.
    + apply lookup_delete_None. right. eapply IH. exact H.
Qed.

(** * C8 *)
(** Claim C8 (as amended): inactivity is enforced by the periodic
    [cleanupExpiredSessions]: a run at time [now] removes every user with
    [now - lastActive >= 24h] together with its wallet record, its session
    id and every token mapped to it, after which [getUserByToken] returns
    [null] for such a token; before that run, [getUserByToken] does not
    look at [lastActive] and returns the session (refreshing it). *)
Theorem cleanup_purges_inactive (now : Z) (st : State) (t userId : string) (u : IUser) :
  sessionTokens st !! t = Some userId -> users st !! userId = Some u ->
  isSessionActive now u = false ->
  users (cleanupExpiredSessions now st) !! userId = None /\
  userWallets (cleanupExpiredSessions now st) !! userId = None /\
  sessionTokens (cleanupExpiredSessions now st) !! t = None /\
  userSessions (cleanupExpiredSessions now st) !! sessionId u = None /\
  (forall now', fst (getUserByToken now' t (cleanupExpiredSessions now st)) = None) /\
  (userId <> "" -> fst (getUserByToken now t st) = Some (touch u now)).
Proof.
  intros Ht Hu Hin.
  set (expired := filter (fun kv : string * IUser => isSessionActive now kv.2 = false) (users st)).
  assert (He : expired !! userId = Some u) by (apply map_lookup_filter_Some_2; [exact Hu | exact Hin]).
  assert (Htok : sessionTokens (cleanupExpiredSessions now st) !! t = None).
  { apply map_lookup_filter_None_2. right. intros x Hx. rewrite Ht in Hx. injection Hx as <-.
    simpl. fold expired. rewrite He. discriminate. }
  split.
  { apply map_lookup_filter_None_2. right. intros x Hx. rewrite Hu in Hx. injection Hx as <-.
    simpl. congruence. }
  split.
  { apply map_lookup_filter_None_2. right. intros x _. simpl. fold expired. rewrite He. discriminate. }
  split; [exact Htok|].
  split; [apply (userSessions_fold_deleted expired _ userId u He)|].
  split; [intros now'; rewrite getUserByToken_no_token by exact Htok; reflexivity|].
  intros Hne. unfold getUserByToken. rewrite Ht.
  destruct (String.eqb userId "") eqn:E; [apply String.eqb_eq in E; contradiction|].
  rewrite Hu. reflexivity.
Qed.

Lemma cleanup_purges_inactive_witness :
  fst (getUserByToken SessionScenario.twoDays "tok_a"
         (cleanupExpiredSessions SessionScenario.twoDays SessionScenario.staleState)) = None.
Proof.
  destruct (cleanup_purges_inactive SessionScenario.twoDays SessionScenario.staleState "tok_a" "user_a"
              (mkUser "user_a" "session_a" 0 0 "0xaddr" true) eq_refl eq_refl eq_refl)
    as (_ & _ & _ & _ & H & _).
  apply H.
Defined.

(** Claim C8, refuted: two days after its last activity, and before the
    reaper has run, user A's token still resolves. *)
Lemma stale_session_still_resolves :
  isSessionActive SessionScenario.twoDays (mkUser "user_a" "session_a" 0 0 "0xaddr" true) = false /\
  fst (getUserByToken SessionScenario.twoDays "tok_a" SessionScenario.staleState) =
    Some (mkUser "user_a" "session_a" 0 SessionScenario.twoDays "0xaddr" true).
Proof. split; reflexivity. Qed.

(** * C9 *)
(** Claim C9 (as amended): [createUser] returns the wallet record with the
    generated private key and mnemonic, and [getUserSession] returns the
    stored wallet record of the token's user (both hand the signing
    material to the caller); [getUserByToken] and [validateToken] return
    an [IUser] or a user id that does not depend on the wallet records or
    on the connected signers. *)
Theorem session_results_and_signing_material :
  (forall (cs : list Z) (uid sid tok : string) (g : GeneratedWallet) (now : Z) (st : State),
     privateKey (wallet (fst (createUser cs uid sid tok g now st))) = g_privateKey g /\
     mnemonic (wallet (fst (createUser cs uid sid tok g now st))) = g_mnemonic g) /\
  (forall (t : string) (st : State) (s : IUserSession),
     getUserSession t st = Some s ->
     exists uid, sessionTokens st !! t = Some uid /\ userWallets st !! uid = Some (wallet s)) /\
  (forall (now : Z) (t : string) (st : State) ws cw,
     fst (getUserByToken now t (replaceSecrets st ws cw)) = fst (getUserByToken now t st)) /\
  (forall (v : string -> option string) (now : Z) (t : string) (st : State) ws cw,
     fst (validateToken v now t (replaceSecrets st ws cw)) = fst (validateToken v now t st)).
Proof.
  split; [intros; split; reflexivity|].
  split.
  { intros t st s. unfold getUserSession.
    destruct (sessionTokens st !! t) as [uid|]; [|discriminate].
    destruct (String.eqb uid ""); [discriminate|].
    destruct (users st !! uid), (userWallets st !! uid) eqn:W; try discriminate.
    intros H. injection H as <-. eauto. }
  split.
  { intros now t st ws cw. unfold getUserByToken. simpl.
    destruct (sessionTokens st !! t); [|reflexivity].
    destruct (String.eqb _ _); [reflexivity|]. destruct (users st !! _); reflexivity. }
  intros v now t st ws cw. unfold validateToken. simpl.
  destruct (v t); [|reflexivity]. destruct (users st !! _); reflexivity.
Qed.

Lemma session_results_and_signing_material_witness :
  exists s, getUserSession "tok_a" SessionScenario.staleState = Some s /\
    userWallets SessionScenario.staleState !! "user_a" = Some (wallet s).
Proof.
  eexists. split; [reflexivity|].
  destruct (proj1 (proj2 session_results_and_signing_material) "tok_a"
              SessionScenario.staleState _ eq_refl) as (uid & H1 & H2).
  vm_compute in H1. injection H1 as <-. exact H2.
Defined.

(** Claim C9, refuted: the value returned by [createUser] carries the
    generated private key and mnemonic, and so does [getUserSession]. *)
Lemma createUser_returns_signing_material :
  privateKey (wallet (fst (createUser [369] "user_a" "session_a" "tok_a"
                             SessionScenario.genWallet 0 SessionScenario.emptyState))) = "0xpriv" /\
  mnemonic (wallet (fst (createUser [369] "user_a" "session_a" "tok_a"
                           SessionScenario.genWallet 0 SessionScenario.emptyState))) = "word list" /\
  exists s, getUserSession "tok_a" SessionScenario.staleState = Some s /\ privateKey (wallet s) = "0xpriv".
Proof. split; [reflexivity|]. split; [reflexivity|]. eexists. split; reflexivity. Qed.

(** * C10 *)
(** Claim C10: revoking any live token clears the shared wallet
    service's connection map for every chain, whichever user's signer was
    connected. *)
Theorem revokeSession_disconnects_every_chain (t : string) (st : State) (userId : string) (u : IUser) :
  sessionTokens st !! t = Some userId -> userId <> "" -> users st !! userId = Some u ->
  fst (revokeSession t st) = true /\
  connectedWallets (snd (revokeSession t st)) = ∅ /\
  (forall c, connectedWallets (snd (revokeSession t st)) !! c = None).
Proof.
  intros Ht Hne Hu. rewrite (revokeSession_live t st userId u Ht Hne Hu). simpl.
  split; [reflexivity|]. split; [reflexivity|]. intros c. apply lookup_empty.
Qed.

(** User B's signer is connected; revoking user A's token disconnects it. *)
Lemma revokeSession_disconnects_every_chain_witness :
  connectedWallets SessionScenario.twoUsers !! 369 = Some "0xprivB" /\
  connectedWallets (snd (revokeSession "tok_a" SessionScenario.twoUsers)) !! 369 = None.
Proof.
  split; [reflexivity|].
  destruct (revokeSession_disconnects_every_chain "tok_a" SessionScenario.twoUsers "user_a"
              (mkUser "user_a" "session_a" 0 0 "0xaddr" true) eq_refl ltac:(discriminate) eq_refl)
    as (_ & _ & H).
  apply H.
Defined.

End SessionFacts.

(* ------------------------------------------------------------------ *)
(** ** The DEX configuration Map and the venue adapters *)

Module DexServiceFacts.
Import Aggregator DexService.

Lemma filter_In_bool {A : Type} (f : A -> bool) (l : list A) (x : A) :
  In x (filter f l) <-> In x l /\ f x = true.
Proof.
  rewrite <- list_elem_of_In, list_elem_of_filter, list_elem_of_In.
  split; intros [H1 H2].
  - split; [exact H2 | apply Is_true_eq_true, H1].
  - split; [apply Is_true_eq_left, H2 | exact H1].
Qed.

Lemma includes_In (l : list Z) (x : Z) : includes l x = true <-> In x l.
Proof.
  unfold includes. rewrite existsb_exists. split.
  - intros (y & Hy & E). apply Z.eqb_eq in E. subst. exact Hy.
  - intros Hx. exists x. split; [exact Hx | apply Z.eqb_refl].
Qed.

Lemma DEXProtocol_eqb_refl (p : DEXProtocol) : DEXProtocol_eqb p p = true.
Proof. apply DEXProtocol_eqb_spec. reflexivity. Qed.

Lemma DEXProtocol_eqb_false (a b : DEXProtocol) : DEXProtocol_eqb a b = false <-> a <> b.
Proof.
  rewrite <- DEXProtocol_eqb_spec. destruct (DEXProtocol_eqb a b); split; congruence.
Qed.

Lemma mapGet_mapSet (c : IDEXAPIConfig) (m : list IDEXAPIConfig) (p : DEXProtocol) :
  mapGet (mapSet c m) p = if DEXProtocol_eqb (protocol c) p then Some c else mapGet m p.
Proof.
  unfold mapGet. induction m as [|c' m IH]; cbn [mapSet find].
  - destruct (DEXProtocol_eqb (protocol c) p); reflexivity.
  - match goal with |- find _ (if ?b then _ else _) = _ => destruct b eqn:E end.
    + apply DEXProtocol_eqb_spec in E. cbn [find]. rewrite E.
      destruct (DEXProtocol_eqb (protocol c) p); reflexivity.
    + cbn [find]. destruct (DEXProtocol_eqb (protocol c') p) eqn:E'; [|exact IH].
      apply DEXProtocol_eqb_spec in E'. subst p.
      apply DEXProtocol_eqb_false in E.
      assert (E2 : DEXProtocol_eqb (protocol c) (protocol c') = false)
        by (apply DEXProtocol_eqb_false; congruence).
      rewrite E2. reflexivity.
Qed.

Lemma mapGet_Some (m : list IDEXAPIConfig) (p : DEXProtocol) (c : IDEXAPIConfig) :
  mapGet m p = Some c -> In c m /\ protocol c = p.
Proof.
  unfold mapGet. intros H. apply find_some in H as [Hin E].
  apply DEXProtocol_eqb_spec in E. auto.
Qed.

Lemma mapGet_None (m : list IDEXAPIConfig) (p : DEXProtocol) :
  mapGet m p = None -> forall c, In c m -> protocol c <> p.
Proof.
  unfold mapGet. intros H c Hc. apply DEXProtocol_eqb_false.
  exact (find_none _ _ H c Hc).
Qed.

Lemma mapSet_in (c x : IDEXAPIConfig) (m : list IDEXAPIConfig) :
  List.NoDup (map protocol m) -> In x (mapSet c m) ->
  x = c \/ (In x m /\ protocol x <> protocol c).
Proof.
  induction m as [|c' m IH]; simpl; intros Hnd Hx.
  - destruct Hx as [<-|[]]. auto.
  - apply NoDup_cons_iff in Hnd as [Hn Hnd].
    destruct (DEXProtocol_eqb (protocol c') (protocol c)) eqn:E.
    + apply DEXProtocol_eqb_spec in E. destruct Hx as [<-|Hx]; [auto|].
      right. split; [auto|]. intros Hp. apply Hn. rewrite E, <- Hp. apply in_map, Hx.
    + apply DEXProtocol_eqb_false in E. destruct Hx as [<-|Hx]; [right; auto|].
      destruct (IH Hnd Hx) as [|[]]; auto.
Qed.

Lemma mapSet_keys (c : IDEXAPIConfig) (m : list IDEXAPIConfig) :
  List.NoDup (map protocol m) -> List.NoDup (map protocol (mapSet c m)).
Proof.
  induction m as [|c' m IH]; simpl; intros Hnd.
  - constructor; [intros []|constructor].
  - apply NoDup_cons_iff in Hnd as [Hn Hnd].
    destruct (DEXProtocol_eqb (protocol c') (protocol c)) eqn:E; simpl.
    + apply DEXProtocol_eqb_spec in E. rewrite <- E. constructor; assumption.
    + apply DEXProtocol_eqb_false in E. constructor; [|apply IH, Hnd].
      intros Hin. apply in_map_iff in Hin as (x & Hx & Hin).
      destruct (mapSet_in c x m Hnd Hin) as [->|[Hxm _]]; [congruence|].
      apply Hn. rewrite <- Hx. apply in_map, Hxm.
Qed.

Lemma updateDEXConfig_keys (p : DEXProtocol) (u : ConfigUpdate) (m : list IDEXAPIConfig) :
  List.NoDup (map protocol m) -> List.NoDup (map protocol (updateDEXConfig p u m)).
Proof.
  unfold updateDEXConfig. destruct (mapGet m p); [apply mapSet_keys | auto].
Qed.

Lemma mapGet_updateDEXConfig (p : DEXProtocol) (u : ConfigUpdate) (m : list IDEXAPIConfig) :
  mapGet (updateDEXConfig p u m) p = option_map (fun c => mergeConfig c u) (mapGet m p).
Proof.
  unfold updateDEXConfig. destruct (mapGet m p) as [e|] eqn:E; [|exact E].
  rewrite mapGet_mapSet. apply mapGet_Some in E as [_ Hp].
  simpl. rewrite Hp, DEXProtocol_eqb_refl. reflexivity.
Qed.

Lemma nineMMBaseUrl_chains (c : Z) (url : string) :
  nineMMBaseUrl c = Some url -> includes nineMMChains c = true.
Proof.
  unfold nineMMBaseUrl. intros H. apply includes_In. unfold nineMMChains.
  destruct (c =? 369) eqn:E1; [apply Z.eqb_eq in E1; simpl; auto|].
  destruct (c =? 8453) eqn:E2; [apply Z.eqb_eq in E2; simpl; auto|].
  destruct (c =? 146) eqn:E3; [apply Z.eqb_eq in E3; simpl; auto | discriminate].
Qed.

Lemma getQuoteFromDEX_success (m : list IDEXAPIConfig) (rep : Replies) (now : Z) (s : spec_float)
  (c : Z) (p : DEXProtocol) (q : ISwapQuote) :
  getQuoteFromDEX m rep now s c p = Success q ->
  dexProtocol q = p /\ q_chainId q = c /\
  (p = ONEINCH \/ p = PARASWAP \/ p = NINE_MM) /\
  (exists config, mapGet m p = Some config /\ includes (supportedChains config) c = true) /\
  (p <> NINE_MM -> toAmountMin q = toAmount q) /\
  (p = NINE_MM -> includes nineMMChains c = true).
Proof.
  unfold getQuoteFromDEX. destruct (mapGet m p) as [config|] eqn:G; [|discriminate].
  destruct (includes (supportedChains config) c) eqn:Hc; simpl; [|discriminate].
  intros H.
  assert (Hcfg : exists config, mapGet m p = Some config /\ includes (supportedChains config) c = true)
    by eauto.
  destruct p; try discriminate H.
  - unfold get1inchQuote in H. destruct (oneInchReply rep); simpl in H; [discriminate|].
    injection H as <-. simpl. repeat split; eauto; intros Hx; discriminate Hx.
  - unfold getParaswapQuote in H. destruct (paraswapReply rep); simpl in H; [discriminate|].
    injection H as <-. simpl. repeat split; eauto; intros Hx; discriminate Hx.
  - unfold get9MMQuote in H. destruct (nineMMBaseUrl c) as [url|] eqn:U; [|discriminate].
    destruct (nineMMReply rep) as [msg| |b]; try discriminate H.
    destruct (Slippage.get9MMQuoteMin s b); [|discriminate H].
    injection H as <-. simpl. repeat split; eauto;
      try (intros Hx; exfalso; exact (Hx eq_refl)).
    intros _. eapply nineMMBaseUrl_chains, U.
Qed.

Lemma service_quote_in (m : list IDEXAPIConfig) (rep : Replies) (now : Z) (s : spec_float) (c : Z)
  (agg : IDEXAggregatorQuote) (q : ISwapQuote) :
  getBestQuoteService m rep now s c = Success agg -> In q (allQuotes agg) ->
  exists p, In p (orderedDEXs m c) /\ getQuoteFromDEX m rep now s c p = Success q.
Proof.
  intros H Hq. unfold getBestQuoteService, getBestQuote in H. cbv zeta in H.
  set (f := fun p => fulfilled (getQuoteFromDEX m rep now s c p)) in H.
  assert (Hall : allQuotes agg = collectValid f (orderedDEXs m c)).
  { destruct (collectValid f (orderedDEXs m c)) as [|x xs]; [discriminate|].
    destruct (includes nineMMChains c); [destruct (find isNineMM (x :: xs)) as [n|];
      [destruct (withinTolerance (parseAmount (reduceBest x xs)) (parseAmount n))|]|];
      injection H as <-; reflexivity. }
  rewrite Hall in Hq. apply AggregatorFacts.collectValid_in in Hq as (p & Hp & Hf).
  exists p. split; [exact Hp|]. unfold f, fulfilled in Hf.
  destruct (getQuoteFromDEX m rep now s c p); congruence.
Qed.

Lemma getBestQuote_of_member (m : list IDEXAPIConfig) (f : DEXProtocol -> option ISwapQuote)
  (c : Z) (q : ISwapQuote) :
  In q (collectValid f (orderedDEXs m c)) ->
  exists agg, getBestQuote m f c = Success agg /\ allQuotes agg = collectValid f (orderedDEXs m c).
Proof.
  intros Hq. unfold getBestQuote. cbv zeta.
  destruct (collectValid f (orderedDEXs m c)) as [|x xs]; [destruct Hq|].
  destruct (includes nineMMChains c); [destruct (find isNineMM (x :: xs)) as [n|];
    [destruct (withinTolerance (parseAmount (reduceBest x xs)) (parseAmount n))|]|];
    eexists; split; reflexivity.
Qed.

Lemma available_in (m : list IDEXAPIConfig) (c : Z) (p : DEXProtocol) :
  In p (getAvailableDEXsForChain m c) <->
  exists cfg, In cfg m /\ protocol cfg = p /\ isActive cfg = true /\ In c (supportedChains cfg).
Proof.
  unfold getAvailableDEXsForChain. rewrite in_map_iff. split.
  - intros (cfg & Hp & Hin). apply filter_In_bool in Hin as [Hin Hf].
    apply andb_prop in Hf as [Ha Hs]. apply includes_In in Hs. eauto 6.
  - intros (cfg & Hin & Hp & Ha & Hs). exists cfg. split; [exact Hp|].
    apply filter_In_bool. split; [exact Hin|]. rewrite Ha. apply includes_In, Hs.
Qed.

(** * Which venues can quote *)
(** With any configuration (after any [updateDEXConfig], [toggleDEX] or
    [addCustomDEX]), every quote in a successful [getBestQuote] of the
    service comes from 1inch, ParaSwap or 9MM, was produced by the venue
    it names, is for the requested chain, and comes from a venue whose
    configuration lists that chain: the Uniswap V3, SushiSwap and
    PancakeSwap adapters always throw, and every other protocol hits the
    "Quote method not implemented" default. *)
Theorem service_quotes_only_from_implemented_venues (m : list IDEXAPIConfig) (rep : Replies)
  (now : Z) (s : spec_float) (c : Z) (agg : IDEXAggregatorQuote) :
  getBestQuoteService m rep now s c = Success agg ->
  forall q, In q (allQuotes agg) ->
    (dexProtocol q = ONEINCH \/ dexProtocol q = PARASWAP \/ dexProtocol q = NINE_MM) /\
    q_chainId q = c /\
    exists config, mapGet m (dexProtocol q) = Some config /\ In c (supportedChains config).
Proof.
  intros H q Hq. destruct (service_quote_in m rep now s c agg q H Hq) as (p & _ & Hp).
  destruct (getQuoteFromDEX_success m rep now s c p q Hp)
    as (Hd & Hc & Hv & (config & Hg & Hs) & _). subst p.
  split; [exact Hv|]. split; [exact Hc|]. exists config. split; [exact Hg|].
  apply includes_In, Hs.
Qed.

Lemma service_quotes_only_from_implemented_venues_witness :
  exists agg,
    getBestQuoteService initializeDEXConfigs (mkReplies (inr 100) (inr 90) (NMData (Some 99)))
      0 (Double.lit 5 1) 8453 = Success agg /\
    forall q, In q (allQuotes agg) ->
      dexProtocol q = ONEINCH \/ dexProtocol q = PARASWAP \/ dexProtocol q = NINE_MM.
Proof.
  destruct (getBestQuoteService initializeDEXConfigs
    (mkReplies (inr 100) (inr 90) (NMData (Some 99))) 0 (Double.lit 5 1) 8453) as [agg|code msg] eqn:E;
    [|vm_compute in E; discriminate E].
  exists agg. split; [reflexivity|]. intros q Hq.
  exact (proj1 (service_quotes_only_from_implemented_venues initializeDEXConfigs
    (mkReplies (inr 100) (inr 90) (NMData (Some 99))) 0 (Double.lit 5 1) 8453 agg E q Hq)).
Defined.

(** * 1inch and ParaSwap quotes carry no slippage margin *)
(** In a successful aggregated quote of the service, every quote not
    from 9MM has [toAmountMin] equal to [toAmount]: the requested
    slippage is not applied to 1inch or ParaSwap quotes. *)
Theorem service_nonNineMM_min_is_amount (m : list IDEXAPIConfig) (rep : Replies)
  (now : Z) (s : spec_float) (c : Z) (agg : IDEXAggregatorQuote) :
  getBestQuoteService m rep now s c = Success agg ->
  forall q, In q (allQuotes agg) -> dexProtocol q <> NINE_MM -> toAmountMin q = toAmount q.
Proof.
  intros H q Hq Hn. destruct (service_quote_in m rep now s c agg q H Hq) as (p & _ & Hp).
  destruct (getQuoteFromDEX_success m rep now s c p q Hp) as (Hd & _ & _ & _ & Hmin & _).
  subst p. exact (Hmin Hn).
Qed.

Lemma service_nonNineMM_min_is_amount_witness :
  exists agg,
    getBestQuoteService initializeDEXConfigs (mkReplies (inr 100) (inr 90) (NMData (Some 99)))
      0 (Double.lit 5 1) 1 = Success agg /\
    allQuotes agg <> [] /\
    forall q, In q (allQuotes agg) -> toAmountMin q = toAmount q.
Proof.
  destruct (getBestQuoteService initializeDEXConfigs
    (mkReplies (inr 100) (inr 90) (NMData (Some 99))) 0 (Double.lit 5 1) 1) as [agg|code msg] eqn:E;
    [|vm_compute in E; discriminate E].
  pose proof E as E'. vm_compute in E'. injection E' as E'.
  exists agg. split; [reflexivity|]. split; [rewrite <- E'; discriminate|].
  intros q Hq.
  apply (service_nonNineMM_min_is_amount initializeDEXConfigs
    (mkReplies (inr 100) (inr 90) (NMData (Some 99))) 0 (Double.lit 5 1) 1 agg E q Hq).
  rewrite <- E' in Hq. simpl in Hq. destruct Hq as [<-|[<-|[]]]; discriminate.
Defined.

(** * 9MM only quotes on its own chains *)
(** Whatever chains the 9MM configuration is updated to list, the 9MM
    adapter yields no quote for a chain other than 8453, 369 and 146:
    [get9MMQuote] has no base URL for it. *)
Theorem nineMM_quote_only_on_nineMM_chains (m : list IDEXAPIConfig) (rep : Replies)
  (now : Z) (s : spec_float) (c : Z) :
  includes nineMMChains c = false ->
  getQuoteFromDEX m rep now s c NINE_MM =
    match mapGet m NINE_MM with
    | None => quoteError "DEX 9mm not configured"
    | Some config =>
        if includes (supportedChains config) c
        then quoteError ("9MM API not available for chain " +:+ pretty c)
        else quoteError ("Chain " +:+ pretty c +:+ " not supported by 9mm")
    end.
Proof.
  intros Hc. unfold getQuoteFromDEX. destruct (mapGet m NINE_MM) as [config|]; [|reflexivity].
  destruct (includes (supportedChains config) c); simpl; [|reflexivity].
  unfold get9MMQuote. destruct (nineMMBaseUrl c) as [url|] eqn:U; [|reflexivity].
  apply nineMMBaseUrl_chains in U. congruence.
Qed.

Lemma nineMM_quote_only_on_nineMM_chains_witness :
  includes nineMMChains 1 = false /\
  getQuoteFromDEX
    (updateDEXConfig NINE_MM {| upd_isActive := None; upd_supportedChains := Some [1] |}
       initializeDEXConfigs)
    (mkReplies (inr 100) (inr 90) (NMData (Some 99))) 0 (Double.lit 5 1) 1 NINE_MM =
    quoteError ("9MM API not available for chain " +:+ pretty 1).
Proof.
  split; [reflexivity|].
  rewrite (nineMM_quote_only_on_nineMM_chains
    (updateDEXConfig NINE_MM {| upd_isActive := None; upd_supportedChains := Some [1] |}
       initializeDEXConfigs)
    (mkReplies (inr 100) (inr 90) (NMData (Some 99))) 0 (Double.lit 5 1) 1 eq_refl).
  vm_compute. reflexivity.
Defined.

End DexServiceFacts.

(* ------------------------------------------------------------------ *)
(** ** Configuration changes and the default venues *)

Module DexConfigFacts.
Import Aggregator DexService DexServiceFacts.

(** [x - x] on doubles: +0 for a finite [x], NaN for an infinity or NaN. *)
Lemma sub_self (x : spec_float) :
  Double.sub x x =
    match x with
    | S754_zero _ | S754_finite _ _ _ => S754_zero false
    | _ => S754_nan
    end.
Proof.
  unfold Double.sub, SFsub. destruct x as [[]|[]| |[] m e]; try reflexivity;
    rewrite Z.sub_diag; reflexivity.
Qed.

(** * Default venues on PulseChain and Sonic *)
(** With the configuration built by the constructor, a PulseChain (369)
    or Sonic (146) quote comes from 9MM alone: [getBestQuote] fails
    exactly when the 9MM request fails, and otherwise returns the 9MM
    quote as the only, best and recommended quote, with zero savings. *)
Theorem default_configs_nineMM_only (rep : Replies) (now : Z) (s : spec_float) (c : Z) :
  c = 369 \/ c = 146 ->
  getBestQuoteService initializeDEXConfigs rep now s c =
    match get9MMQuote rep now s c with
    | inl _ => Failure "AGGREGATOR_ERROR" "No valid quotes found from any DEX"
    | inr q => Success {| bestQuote := q; allQuotes := [q];
                          savings := {| savings_amount :=
                                         match parseAmount q with
                                         | S754_zero _ | S754_finite _ _ _ => S754_zero false
                                         | _ => S754_nan
                                         end |};
                          recommendedDEX := NINE_MM |}
    end.
Proof.
  intros Hc.
  assert (Hq : forall q, get9MMQuote rep now s c = inr q -> dexProtocol q = NINE_MM).
  { unfold get9MMQuote. intros q. destruct (nineMMBaseUrl c); [|discriminate].
    destruct (nineMMReply rep) as [| |b]; try discriminate.
    destruct (Slippage.get9MMQuoteMin s b); [|discriminate].
    intros H. injection H as <-. reflexivity. }
  assert (Ho : orderedDEXs initializeDEXConfigs c = [NINE_MM])
    by (destruct Hc as [-> | ->]; vm_compute; reflexivity).
  assert (Hn : includes nineMMChains c = true) by (destruct Hc as [-> | ->]; reflexivity).
  assert (Hg : getQuoteFromDEX initializeDEXConfigs rep now s c NINE_MM =
    match get9MMQuote rep now s c with inl msg => quoteError msg | inr q => Success q end)
    by (destruct Hc as [-> | ->]; reflexivity).
  unfold getBestQuoteService, getBestQuote. cbv zeta. rewrite Ho. cbn [collectValid].
  rewrite Hg. destruct (get9MMQuote rep now s c) as [msg|q] eqn:E; [reflexivity|].
  cbn [fulfilled]. rewrite Hn. unfold isNineMM. cbn [find]. rewrite (Hq q eq_refl).
  rewrite DEXProtocol_eqb_refl. unfold reduceBest, reduceWorst. cbn [fold_left].
  destruct (withinTolerance (parseAmount q) (parseAmount q)); rewrite sub_self;
    try rewrite (Hq q eq_refl); reflexivity.
Qed.

Lemma default_configs_nineMM_only_witness :
  getBestQuoteService initializeDEXConfigs (mkReplies (inr 100) (inr 90) (NMData (Some 99)))
    0 (Double.lit 5 1) 369 =
    Success {| bestQuote := {| dexProtocol := NINE_MM; toAmount := 99; toAmountMin := 98;
                               validUntil := 30000; q_chainId := 369 |};
               allQuotes := [{| dexProtocol := NINE_MM; toAmount := 99; toAmountMin := 98;
                                validUntil := 30000; q_chainId := 369 |}];
               savings := {| savings_amount := S754_zero false |}; recommendedDEX := NINE_MM |}.
Proof.
  rewrite (default_configs_nineMM_only (mkReplies (inr 100) (inr 90) (NMData (Some 99)))
    0 (Double.lit 5 1) 369 (or_introl eq_refl)).
  vm_compute. reflexivity.
Defined.

End DexConfigFacts.

(* ------------------------------------------------------------------ *)
(** ** Enabling, disabling and adding venues *)

Module DexToggleFacts.
Import Aggregator DexService DexServiceFacts.

Lemma runConfigOp_keys (op : ConfigOp) (m : list IDEXAPIConfig) :
  List.NoDup (map protocol m) -> List.NoDup (map protocol (runConfigOp op m)).
Proof.
  destruct op; simpl; [apply mapSet_keys | apply updateDEXConfig_keys | apply updateDEXConfig_keys].
Qed.

Lemma configsAfter_keys (ops : list ConfigOp) : List.NoDup (map protocol (configsAfter ops)).
Proof.
  unfold configsAfter.
  assert (H0 : List.NoDup (map protocol initializeDEXConfigs)).
  { vm_compute. repeat constructor; simpl; intuition discriminate. }
  revert H0. generalize initializeDEXConfigs.
  induction ops as [|op ops IH]; intros m Hm; simpl; [exact Hm|].
  apply IH, runConfigOp_keys, Hm.
Qed.

Lemma toggled_off_unavailable (m : list IDEXAPIConfig) (p : DEXProtocol) (c : Z) :
  List.NoDup (map protocol m) -> ~ In p (getAvailableDEXsForChain (toggleDEX p false m) c).
Proof.
  intros Hnd Hin. apply available_in in Hin as (cfg & Hin & Hp & Ha & _).
  unfold toggleDEX, updateDEXConfig in Hin.
  destruct (mapGet m p) as [e|] eqn:G.
  - apply mapGet_Some in G as [_ Gp].
    destruct (mapSet_in _ cfg m Hnd Hin) as [->|[_ Hne]].
    + simpl in Ha. discriminate.
    + simpl in Hne. congruence.
  - exact (mapGet_None m p G cfg Hin Hp).
Qed.


(** * Disabling a venue *)
(** After [toggleDEX(p, false)] on a configuration reached from the
    constructor, no quote of a successful [getBestQuote] comes from [p],
    unless [p] is 9MM and the chain is one of 8453, 369, 146. *)
Theorem disabled_venue_not_quoted (ops : list ConfigOp) (p : DEXProtocol) (rep : Replies)
  (now : Z) (s : spec_float) (c : Z) (agg : IDEXAggregatorQuote) :
  p <> NINE_MM \/ includes nineMMChains c = false ->
  getBestQuoteService (toggleDEX p false (configsAfter ops)) rep now s c = Success agg ->
  forall q, In q (allQuotes agg) -> dexProtocol q <> p.
Proof.
  intros Hp H q Hq.
  destruct (service_quote_in _ rep now s c agg q H Hq) as (d & Hd & Hg).
  destruct (getQuoteFromDEX_success _ rep now s c d q Hg) as (Hdq & _). rewrite Hdq.
  intros ->. unfold orderedDEXs in Hd.
  pose proof (toggled_off_unavailable (configsAfter ops) p c (configsAfter_keys ops)) as Hna.
  destruct (includes nineMMChains c) eqn:Hc.
  - destruct Hd as [<-|Hd].
    + destruct Hp as [Hp|Hp]; [exact (Hp eq_refl) | discriminate].
    + apply filter_In_bool in Hd as [Hd _]. exact (Hna Hd).
  - exact (Hna Hd).
Qed.

Lemma disabled_venue_not_quoted_witness :
  exists agg,
    getBestQuoteService (toggleDEX ONEINCH false (configsAfter []))
      (mkReplies (inr 100) (inr 90) (NMData (Some 99))) 0 (Double.lit 5 1) 1 = Success agg /\
    forall q, In q (allQuotes agg) -> dexProtocol q <> ONEINCH.
Proof.
  destruct (getBestQuoteService (toggleDEX ONEINCH false (configsAfter []))
    (mkReplies (inr 100) (inr 90) (NMData (Some 99))) 0 (Double.lit 5 1) 1) as [agg|code msg] eqn:E;
    [|vm_compute in E; discriminate E].
  exists agg. split; [reflexivity|].
  assert (Hp : ONEINCH <> NINE_MM \/ includes nineMMChains 1 = false) by (left; discriminate).
  exact (disabled_venue_not_quoted [] ONEINCH (mkReplies (inr 100) (inr 90) (NMData (Some 99)))
    0 (Double.lit 5 1) 1 agg Hp E).
Defined.

(** * Disabling 9MM on its own chains *)
(** On chains 8453, 369 and 146, [toggleDEX(NINE_MM, false)] does not
    stop 9MM from being quoted: [getBestQuote] puts 9MM first without
    looking at [isActive], and [getQuoteFromDEX] only checks that the
    configuration exists and lists the chain. *)
Theorem disabled_nineMM_still_quoted (m : list IDEXAPIConfig) (rep : Replies) (now : Z) (s : spec_float)
  (c : Z) (config : IDEXAPIConfig) (q : ISwapQuote) :
  includes nineMMChains c = true ->
  mapGet m NINE_MM = Some config -> In c (supportedChains config) ->
  get9MMQuote rep now s c = inr q ->
  (exists cfg, mapGet (toggleDEX NINE_MM false m) NINE_MM = Some cfg /\ isActive cfg = false) /\
  exists agg, getBestQuoteService (toggleDEX NINE_MM false m) rep now s c = Success agg /\
              In q (allQuotes agg).
Proof.
  intros Hc Hg Hs Hq.
  assert (Hg' : mapGet (toggleDEX NINE_MM false m) NINE_MM =
                Some (mergeConfig config {| upd_isActive := Some false; upd_supportedChains := None |}))
    by (unfold toggleDEX; rewrite mapGet_updateDEXConfig, Hg; reflexivity).
  split; [eexists; split; [exact Hg' | reflexivity]|].
  set (m' := toggleDEX NINE_MM false m) in *.
  assert (Hin : In q (collectValid (fun p => fulfilled (getQuoteFromDEX m' rep now s c p))
                                   (orderedDEXs m' c))).
  { apply AggregatorFacts.collectValid_in. exists NINE_MM. split.
    - unfold orderedDEXs. rewrite Hc. left. reflexivity.
    - unfold getQuoteFromDEX. rewrite Hg'. simpl.
      apply includes_In in Hs. rewrite Hs. simpl. rewrite Hq. reflexivity. }
  destruct (getBestQuote_of_member _ _ _ _ Hin) as (agg & Ha & Hall).
  exists agg. split; [exact Ha | rewrite Hall; exact Hin].
Qed.

Lemma disabled_nineMM_still_quoted_witness :
  exists agg,
    getBestQuoteService (toggleDEX NINE_MM false initializeDEXConfigs)
      (mkReplies (inr 100) (inr 90) (NMData (Some 99))) 0 (Double.lit 5 1) 369 = Success agg /\
    In {| dexProtocol := NINE_MM; toAmount := 99; toAmountMin := 98;
          validUntil := 30000; q_chainId := 369 |} (allQuotes agg).
Proof.
  destruct (disabled_nineMM_still_quoted initializeDEXConfigs
    (mkReplies (inr 100) (inr 90) (NMData (Some 99))) 0 (Double.lit 5 1) 369
    {| protocol := NINE_MM; isActive := true; supportedChains := [8453; 369; 146] |}
    {| dexProtocol := NINE_MM; toAmount := 99; toAmountMin := 98;
       validUntil := 30000; q_chainId := 369 |}
    eq_refl ltac:(vm_compute; reflexivity) ltac:(simpl; auto) ltac:(vm_compute; reflexivity))
    as [_ H].
  exact H.
Defined.

End DexToggleFacts.

(* ------------------------------------------------------------------ *)
(** ** The shared wallet service *)

Module WalletServiceFacts.
Import WalletService Sessions UserQueries.



Lemma importWallet_lookup (key : string) (cs : list Z) (ws : gmap Z string) (c : Z) :
  importWallet key cs ws !! c =
    if Aggregator.includes providerChains c && Aggregator.includes cs c then Some key else ws !! c.
Proof.
  unfold importWallet. revert ws. induction cs as [|c0 cs IH]; intros ws; cbn [fold_left].
  - unfold Aggregator.includes at 2. cbn [existsb]. rewrite andb_false_r. reflexivity.
  - rewrite IH.
    change (Aggregator.includes (c0 :: cs) c) with ((c =? c0) || Aggregator.includes cs c).
    destruct (c =? c0) eqn:E.
    + apply Z.eqb_eq in E. subst c0. rewrite orb_true_l, andb_true_r.
      destruct (Aggregator.includes providerChains c).
      * rewrite lookup_insert_eq. destruct (Aggregator.includes cs c); reflexivity.
      * rewrite andb_false_l. reflexivity.
    + rewrite orb_false_l.
      destruct (Aggregator.includes providerChains c && Aggregator.includes cs c); [reflexivity|].
      apply Z.eqb_neq in E.
      destruct (Aggregator.includes providerChains c0); [apply lookup_insert_ne; congruence | reflexivity].
Qed.

(** * Creating a user replaces the shared signer *)
(** After [createUser(chainIds)], the shared [walletService] signs on
    every requested chain that has a provider (8453, 369, 146) with the
    new user's key, whoever was connected there before; other chains keep
    their signer. *)
Theorem createUser_takes_over_signer (cs : list Z) (uid sid tok : string) (g : GeneratedWallet)
  (now : Z) (st : State) (c : Z) :
  connectedWallets (snd (createUser cs uid sid tok g now st)) !! c =
    if Aggregator.includes providerChains c && Aggregator.includes cs c
    then Some (g_privateKey g) else connectedWallets st !! c.
Proof. unfold createUser. simpl. apply importWallet_lookup. Qed.

(** * Loading a user's wallet *)
(** [initializeUserWallet(userId)] throws "User wallet not found" when
    the user has no wallet record; otherwise it changes nothing but the
    shared [walletService], which then signs with this user's key on
    every chain of the wallet record that has a provider. *)
Theorem initializeUserWallet_spec (uid : string) (st : State) :
  (userWallets st !! uid = None -> initializeUserWallet uid st = inl "User wallet not found") /\
  (forall w, userWallets st !! uid = Some w ->
   exists st', initializeUserWallet uid st = inr st' /\
     users st' = users st /\ userWallets st' = userWallets st /\
     sessionTokens st' = sessionTokens st /\ userSessions st' = userSessions st /\
     forall c, connectedWallets st' !! c =
       if Aggregator.includes providerChains c && Aggregator.includes (chainIds w) c
       then Some (privateKey w) else connectedWallets st !! c).
Proof.
  unfold initializeUserWallet. split.
  - intros H. rewrite H. reflexivity.
  - intros w H. rewrite H. eexists. split; [reflexivity|]. simpl.
    repeat split. intros c. apply importWallet_lookup.
Qed.

Lemma initializeUserWallet_spec_witness :
  exists st', initializeUserWallet "user_b" SessionScenario.twoUsers = inr st' /\
    connectedWallets st' !! 369 = Some "0xprivB".
Proof.
  destruct (proj2 (initializeUserWallet_spec "user_b" SessionScenario.twoUsers)
    {| address := "0xaddrB"; privateKey := "0xprivB"; mnemonic := "other words";
       chainIds := [8453; 369]; w_createdAt := 10 |} ltac:(vm_compute; reflexivity))
    as (st' & E & _ & _ & _ & _ & Hc).
  exists st'. split; [exact E|]. rewrite Hc. reflexivity.
Defined.

End WalletServiceFacts.

(* ------------------------------------------------------------------ *)
(** ** Session table: lookups after creation, the expiry sweep *)

Module SessionLifecycleFacts.
Import Sessions.

(** * A new session resolves *)
(** Right after [createUser], [getUserSession] on the issued token
    returns exactly the session [createUser] returned, and
    [getUserByToken] returns its user with [lastActive] refreshed. *)
Theorem createUser_session_resolves (cs : list Z) (uid sid tok : string) (g : GeneratedWallet)
  (now now' : Z) (st : State) :
  uid <> "" ->
  getUserSession tok (snd (createUser cs uid sid tok g now st)) =
    Some (fst (createUser cs uid sid tok g now st)) /\
  fst (getUserByToken now' tok (snd (createUser cs uid sid tok g now st))) =
    Some (touch (user (fst (createUser cs uid sid tok g now st))) now').
Proof.
  intros Hne. assert (E : String.eqb uid "" = false) by (apply String.eqb_neq; exact Hne).
  unfold createUser, getUserSession, getUserByToken. simpl.
  rewrite !lookup_insert_eq, E. split; reflexivity.
Qed.

Lemma createUser_session_resolves_witness :
  getUserSession "tok_b" SessionScenario.twoUsers =
    Some (fst (createUser [8453; 369] "user_b" "session_b" "tok_b" SessionScenario.genWalletB 10
                 SessionScenario.staleState)).
Proof.
  exact (proj1 (createUser_session_resolves [8453; 369] "user_b" "session_b" "tok_b"
    SessionScenario.genWalletB 10 10 SessionScenario.staleState ltac:(discriminate))).
Defined.

Lemma cleanup_active (now : Z) (st : State) (uid : string) (u : IUser) :
  users st !! uid = Some u -> isSessionActive now u = true ->
  users (cleanupExpiredSessions now st) !! uid = Some u /\
  userWallets (cleanupExpiredSessions now st) !! uid = userWallets st !! uid /\
  (forall t, sessionTokens st !! t = Some uid -> sessionTokens (cleanupExpiredSessions now st) !! t = Some uid).
Proof.
  intros Hu Ha.
  set (expired := filter (fun kv : string * IUser => isSessionActive now kv.2 = false) (users st)).
  assert (He : expired !! uid = None).
  { apply map_lookup_filter_None_2. right. intros x Hx. rewrite Hu in Hx. injection Hx as <-.
    simpl. congruence. }
  split; [apply map_lookup_filter_Some_2; [exact Hu | exact Ha]|].
  split.
  - simpl. fold expired. destruct (userWallets st !! uid) as [w|] eqn:Hw.
    + apply map_lookup_filter_Some_2; [exact Hw | exact He].
    + apply map_lookup_filter_None_2. left. exact Hw.
  - intros t Ht. simpl. fold expired. apply map_lookup_filter_Some_2; [exact Ht | exact He].
Qed.

(** * The sweep spares active sessions *)
(** [cleanupExpiredSessions] does not change what [getUserByToken] and
    [getUserSession] return for a token whose user is still active. *)
Theorem cleanup_keeps_active_sessions (now now' : Z) (st : State) (t uid : string) (u : IUser) :
  sessionTokens st !! t = Some uid -> users st !! uid = Some u -> isSessionActive now u = true ->
  fst (getUserByToken now' t (cleanupExpiredSessions now st)) = fst (getUserByToken now' t st) /\
  getUserSession t (cleanupExpiredSessions now st) = getUserSession t st.
Proof.
  intros Ht Hu Ha. destruct (cleanup_active now st uid u Hu Ha) as (Hu' & Hw' & Ht').
  specialize (Ht' t Ht).
  unfold getUserByToken, getUserSession. rewrite Ht, Ht'.
  destruct (String.eqb uid ""); [split; reflexivity|].
  rewrite Hu, Hu', Hw'. split; reflexivity.
Qed.

Lemma cleanup_keeps_active_sessions_witness :
  fst (getUserByToken 2000 "tok_b" (cleanupExpiredSessions 1000 SessionScenario.twoUsers))
    = fst (getUserByToken 2000 "tok_b" SessionScenario.twoUsers).
Proof.
  apply (cleanup_keeps_active_sessions 1000 2000 SessionScenario.twoUsers "tok_b" "user_b"
    {| id := "user_b"; sessionId := "session_b"; createdAt := 10; lastActive := 10;
       walletAddress := "0xaddrB"; walletGenerated := true |}
    ltac:(vm_compute; reflexivity) ltac:(vm_compute; reflexivity) ltac:(vm_compute; reflexivity)).
Defined.

(** * A lookup keeps the session alive for 24 hours *)
(** A successful [getUserByToken] at time [now] refreshes [lastActive],
    so any sweep during the next 24 hours leaves the token resolving to
    the same user. *)
Theorem getUserByToken_keeps_session_alive (now now' : Z) (t : string) (st st' : State) (u : IUser) :
  getUserByToken now t st = (Some u, st') ->
  now <= now' < now + maxInactiveTime ->
  fst (getUserByToken now' t (cleanupExpiredSessions now' st')) = Some (touch u now').
Proof.
  intros H Hw. unfold getUserByToken in H.
  destruct (sessionTokens st !! t) as [uid|] eqn:Ht; [|discriminate].
  destruct (String.eqb uid "") eqn:Hne; [discriminate|].
  destruct (users st !! uid) as [u0|] eqn:Hu; [|discriminate].
  injection H as <- <-.
  assert (Hu' : users (set_users st (<[uid:=touch u0 now]> (users st))) !! uid = Some (touch u0 now))
    by apply lookup_insert_eq.
  assert (Ha : isSessionActive now' (touch u0 now) = true).
  { unfold isSessionActive, touch. simpl. apply Z.ltb_lt. lia. }
  destruct (cleanup_active now' _ uid _ Hu' Ha) as (Hu2 & _ & Ht2).
  unfold getUserByToken. rewrite (Ht2 t Ht), Hne, Hu2. reflexivity.
Qed.

Lemma getUserByToken_keeps_session_alive_witness :
  fst (getUserByToken (5 + maxInactiveTime) "tok_a"
         (cleanupExpiredSessions (5 + maxInactiveTime)
            (snd (getUserByToken 10 "tok_a" SessionScenario.staleState)))) <> None.
Proof.
  destruct (getUserByToken 10 "tok_a" SessionScenario.staleState) as [r st'] eqn:E.
  destruct r as [u|]; [|vm_compute in E; discriminate].
  simpl. rewrite (getUserByToken_keeps_session_alive 10 (5 + maxInactiveTime) "tok_a"
    SessionScenario.staleState st' u E ltac:(unfold maxInactiveTime; lia)).
  discriminate.
Defined.

(** * The sweep is idempotent *)
(** A second [cleanupExpiredSessions] at the same time changes nothing. *)
Theorem cleanup_idempotent (now : Z) (st : State) :
  cleanupExpiredSessions now (cleanupExpiredSessions now st) = cleanupExpiredSessions now st.
Proof.
  set (st1 := cleanupExpiredSessions now st).
  assert (Hact : forall k u, users st1 !! k = Some u -> isSessionActive now u = true).
  { intros k u H. apply map_lookup_filter_Some in H as [_ H]. exact H. }
  assert (Hexp : filter (fun kv : string * IUser => isSessionActive now kv.2 = false) (users st1) = ∅).
  { apply map_empty. intros k. apply map_lookup_filter_None_2.
    destruct (users st1 !! k) as [u|] eqn:E; [right|left; reflexivity].
    intros x Hx. injection Hx as <-. simpl. rewrite (Hact k u E). discriminate. }
  assert (Hu : filter (fun kv : string * IUser => isSessionActive now kv.2 = true) (users st1) = users st1).
  { apply map_filter_id. intros k u H. exact (Hact k u H). }
  clearbody st1. unfold cleanupExpiredSessions at 1. cbv zeta.
  rewrite Hexp, Hu, map_fold_empty.
  rewrite (map_filter_id _ (userWallets st1)) by (intros; apply lookup_empty).
  rewrite (map_filter_id _ (sessionTokens st1)) by (intros; apply lookup_empty).
  destruct st1. reflexivity.
Qed.

End SessionLifecycleFacts.

(* ------------------------------------------------------------------ *)
(** ** Listing active users *)

Module ActiveUsersFacts.
Import Sessions UserQueries.

Lemma insertUser_perm (x : IUser) (l : list IUser) : Permutation (insertUser x l) (x :: l).
Proof.
  induction l as [|y ys IH]; simpl; [auto|].
  destruct (byRecency y x <? 0); [|auto].
  eapply perm_trans; [apply perm_skip, IH|]. apply perm_swap.
Qed.

Lemma sortUsers_perm (l : list IUser) : Permutation (sortUsers l) l.
Proof.
  induction l as [|x xs IH]; simpl; [auto|].
  eapply perm_trans; [apply insertUser_perm|]. auto.
Qed.

Lemma insertUser_hd (x y : IUser) (l : list IUser) :
  moreRecent y x -> HdRel moreRecent y l -> HdRel moreRecent y (insertUser x l).
Proof.
  intros Hyx Hl. destruct l as [|z zs]; simpl; [auto|].
  destruct (byRecency z x <? 0); constructor; [inversion Hl; auto | exact Hyx].
Qed.

Lemma insertUser_sorted (x : IUser) (l : list IUser) :
  Sorted moreRecent l -> Sorted moreRecent (insertUser x l).
Proof.
  induction l as [|y ys IH]; intros Hs; simpl; [auto|].
  destruct (byRecency y x <? 0) eqn:E.
  - apply Z.ltb_lt in E. unfold byRecency in E.
    apply Sorted_inv in Hs as [Hs Hh]. constructor; [apply IH, Hs|].
    apply insertUser_hd; [unfold moreRecent; lia | exact Hh].
  - apply Z.ltb_ge in E. unfold byRecency in E.
    constructor; [exact Hs|]. constructor. unfold moreRecent. lia.
Qed.

Lemma sortUsers_sorted (l : list IUser) : Sorted moreRecent (sortUsers l).
Proof. induction l; simpl; auto using insertUser_sorted. Qed.

(** * Active users, most recent first *)
(** [getActiveUsers] lists, for any insertion order of the [users] Map,
    exactly the users whose session is active, each as often as it is
    stored, ordered by descending [lastActive]. *)
Theorem getActiveUsers_spec (now : Z) (st : State) (values : list IUser) :
  Permutation values (map snd (map_to_list (users st))) ->
  Sorted moreRecent (getActiveUsers now values) /\
  Permutation (getActiveUsers now values) (filter (isSessionActive now) values) /\
  (forall u, In u (getActiveUsers now values) <->
             exists k, users st !! k = Some u /\ isSessionActive now u = true).
Proof.
  intros Hp. unfold getActiveUsers.
  split; [apply sortUsers_sorted|]. split; [apply sortUsers_perm|].
  intros u. split.
  - intros Hu. apply (Permutation_in _ (sortUsers_perm _)) in Hu.
    apply DexServiceFacts.filter_In_bool in Hu as [Hu Ha]. apply (Permutation_in _ Hp) in Hu.
    apply in_map_iff in Hu as ([k u'] & <- & Hin). simpl.
    exists k. split; [|exact Ha].
    apply elem_of_map_to_list, list_elem_of_In, Hin.
  - intros (k & Hk & Ha). apply (Permutation_in _ (Permutation_sym (sortUsers_perm _))).
    apply DexServiceFacts.filter_In_bool. split; [|exact Ha].
    apply (Permutation_in _ (Permutation_sym Hp)). apply in_map_iff.
    exists (k, u). split; [reflexivity|].
    apply list_elem_of_In, elem_of_map_to_list, Hk.
Qed.

Lemma getActiveUsers_spec_witness :
  Sorted moreRecent
    (getActiveUsers 20 (map snd (map_to_list (users SessionScenario.twoUsers)))).
Proof.
  exact (proj1 (getActiveUsers_spec 20 SessionScenario.twoUsers
    (map snd (map_to_list (users SessionScenario.twoUsers))) (Permutation_refl _))).
Defined.

End ActiveUsersFacts.

(* ------------------------------------------------------------------ *)
(** ** The 9MM router cache *)

Module RouterCacheFacts.
Import NineMM.
Local Open Scope Z_scope.

Lemma getRouterContract_cached (hp : Z -> bool) (c : Z) (sg : option string)
  (routers : gmap Z Runner) (r : Runner) :
  routers !! c = Some r -> getRouterContract hp c sg routers = (Some r, routers).
Proof. intros H. unfold getRouterContract. rewrite H. reflexivity. Qed.

Lemma getSwapQuote_routers (hp : Z -> bool) (ao : option Z) (c : Z) (s : spec_float)
  (routers : gmap Z Runner) (q : Z * Z) (routers' : gmap Z Runner) :
  getSwapQuote hp ao c s routers = (Some q, routers') ->
  exists r, routers' !! c = Some r /\ (routers !! c = Some r \/ (routers !! c = None /\ r = RProvider)).
Proof.
  unfold getSwapQuote.
  destruct (Aggregator.includes deployedChains c) eqn:Hd; simpl; [|discriminate].
  destruct (hp c) eqn:Hp; simpl; [|discriminate].
  unfold getRouterContract. destruct (routers !! c) as [r|] eqn:E.
  - destruct ao as [a|]; simpl; [|discriminate].
    destruct (Slippage.getSwapQuoteMin s a); intros H; [|discriminate].
    injection H as _ <-. eauto.
  - rewrite Hd. simpl. rewrite Hp. destruct ao as [a|]; simpl; [|discriminate].
    destruct (Slippage.getSwapQuoteMin s a); intros H; [|discriminate].
    injection H as _ <-. exists RProvider. rewrite lookup_insert_eq. auto.
Qed.

(** A router cached for a chain stays cached through every call. *)
Lemma getRouterContract_keeps (hp : Z -> bool) (c0 c : Z) (sg : option string)
  (routers : gmap Z Runner) (x : Runner) :
  routers !! c = Some x -> snd (getRouterContract hp c0 sg routers) !! c = Some x.
Proof.
  intros H. unfold getRouterContract.
  destruct (routers !! c0) eqn:E; [exact H|].
  assert (Hne : c0 <> c) by (intros ->; congruence).
  destruct (Aggregator.includes deployedChains c0); simpl; [|exact H].
  destruct sg; [|destruct (hp c0)]; simpl; try exact H;
    rewrite lookup_insert_ne by exact Hne; exact H.
Qed.

Lemma getSwapQuote_keeps (hp : Z -> bool) (ao : option Z) (c0 c : Z) (s : spec_float)
  (routers : gmap Z Runner) (x : Runner) :
  routers !! c = Some x -> snd (getSwapQuote hp ao c0 s routers) !! c = Some x.
Proof.
  intros H. unfold getSwapQuote.
  destruct (Aggregator.includes deployedChains c0), (hp c0); simpl; try exact H.
  pose proof (getRouterContract_keeps hp c0 c None routers x H) as K.
  destruct (getRouterContract hp c0 None routers) as [[rr|] rs]; simpl in *; [|exact K].
  destruct ao as [a|]; [|exact K].
  destruct (Slippage.getSwapQuoteMin s a); exact K.
Qed.

Lemma executeSwap_keeps (hp : Z -> bool) (ao : option Z) (c0 c : Z) (s : spec_float)
  (signer : string) (routers : gmap Z Runner) (x : Runner) :
  routers !! c = Some x -> snd (executeSwap hp ao c0 s signer routers) !! c = Some x.
Proof.
  intros H. unfold executeSwap.
  pose proof (getSwapQuote_keeps hp ao c0 c s routers x H) as K.
  destruct (getSwapQuote hp ao c0 s routers) as [[[a mo]|] rs]; simpl in *; [|exact K].
  pose proof (getRouterContract_keeps hp c0 c (Some signer) rs x K) as K2.
  destruct (getRouterContract hp c0 (Some signer) rs) as [[rr|] rs2]; exact K2.
Qed.

Lemma runRouterOps_keeps (hp : Z -> bool) (ops : list RouterOp) (c : Z)
  (routers : gmap Z Runner) (x : Runner) :
  routers !! c = Some x -> runRouterOps hp ops routers !! c = Some x.
Proof.
  unfold runRouterOps. revert routers.
  induction ops as [|op ops IH]; intros routers H; cbn [fold_left]; [exact H|].
  apply IH. destruct op; cbn [runRouterOp].
  - apply getSwapQuote_keeps, H.
  - apply executeSwap_keeps, H.
  - apply getRouterContract_keeps, H.
  - apply getRouterContract_keeps, H.
Qed.

(** * Which router sends a swap *)
(** [executeSwap(params, signer)] sends the swap through the router
    cached for the chain before the call, or, when none was, through the
    provider-bound router that its own [getSwapQuote] cached: the
    [signer] argument is never bound to the router it uses. *)
Theorem executeSwap_router (hp : Z -> bool) (ao : option Z) (c : Z) (s : spec_float) (signer : string)
  (routers : gmap Z Runner) (r : Runner) (minOut : Z) (routers' : gmap Z Runner) :
  executeSwap hp ao c s signer routers = (Some (r, minOut), routers') ->
  routers !! c = Some r \/ (routers !! c = None /\ r = RProvider).
Proof.
  unfold executeSwap.
  destruct (getSwapQuote hp ao c s routers) as [[[a mo]|] routers1] eqn:Q; [|discriminate].
  destruct (getSwapQuote_routers hp ao c s routers _ routers1 Q) as (r1 & H1 & Hr1).
  rewrite (getRouterContract_cached hp c (Some signer) routers1 r1 H1).
  intros H. injection H as <- _ _. exact Hr1.
Qed.

Lemma executeSwap_router_witness :
  executeSwap (fun _ => true) (Some 1000) 369 (Double.lit 5 1) "0xkey" ∅ =
    (Some (RProvider, 995), {[369 := RProvider]}) /\
  ((∅ : gmap Z Runner) !! 369 = Some RProvider \/
   ((∅ : gmap Z Runner) !! 369 = None /\ RProvider = RProvider)).
Proof.
  assert (E : executeSwap (fun _ => true) (Some 1000) 369 (Double.lit 5 1) "0xkey" ∅ =
    (Some (RProvider, 995), {[369 := RProvider]})) by (vm_compute; reflexivity).
  split; [exact E|].
  exact (executeSwap_router (fun _ => true) (Some 1000) 369 (Double.lit 5 1) "0xkey" ∅ RProvider 995
    {[369 := RProvider]} E).
Defined.

(** * One user's router serves the next *)
(** Once [addLiquidity] has run for a signer on a chain with no cached
    router, the chain's router stays bound to that signer through any
    later sequence of [getSwapQuote], [executeSwap], [addLiquidity] and
    [removeLiquidity] calls, and every later [executeSwap] on that chain,
    whatever signer it is given, sends the swap through the first
    signer's router. *)
Theorem addLiquidity_router_reused (hp : Z -> bool) (c : Z) (signerA signerB : string)
  (ao : option Z) (s : spec_float) (routers routers1 : gmap Z Runner) (r : Runner) :
  routers !! c = None ->
  addLiquidity hp c signerA routers = (Some r, routers1) ->
  r = RSigner signerA /\
  forall ops,
    runRouterOps hp ops routers1 !! c = Some (RSigner signerA) /\
    forall r' minOut routers2,
      executeSwap hp ao c s signerB (runRouterOps hp ops routers1) = (Some (r', minOut), routers2) ->
      r' = RSigner signerA.
Proof.
  intros Hn H. unfold addLiquidity, getRouterContract in H. rewrite Hn in H.
  destruct (Aggregator.includes deployedChains c); simpl in H; [|discriminate].
  injection H as <- <-. split; [reflexivity|]. intros ops.
  assert (Hk : runRouterOps hp ops (<[c:=RSigner signerA]> routers) !! c = Some (RSigner signerA))
    by (apply runRouterOps_keeps, lookup_insert_eq).
  split; [exact Hk|].
  intros r' minOut routers2 He. unfold executeSwap in He.
  destruct (getSwapQuote hp ao c s (runRouterOps hp ops (<[c:=RSigner signerA]> routers)))
    as [[[a mo]|] routers3] eqn:Q; [|discriminate].
  destruct (getSwapQuote_routers hp ao c s _ _ routers3 Q) as (r1 & H1 & Hr1).
  rewrite Hk in Hr1.
  rewrite (getRouterContract_cached hp c (Some signerB) routers3 r1 H1) in He.
  injection He as <- _ _. destruct Hr1 as [E|[E _]]; congruence.
Qed.

Lemma addLiquidity_router_reused_witness :
  addLiquidity (fun _ => true) 8453 "0xprivA" ∅ = (Some (RSigner "0xprivA"), {[8453 := RSigner "0xprivA"]}) /\
  executeSwap (fun _ => true) (Some 1000) 8453 (Double.lit 5 1) "0xprivB"
    (runRouterOps (fun _ => true)
       [OpAddLiquidity 8453 "0xprivB"; OpExecuteSwap (Some 1000) 8453 (Double.lit 5 1) "0xprivB"]
       {[8453 := RSigner "0xprivA"]}) =
    (Some (RSigner "0xprivA", 995), {[8453 := RSigner "0xprivA"]}) /\
  RSigner "0xprivA" = RSigner "0xprivA".
Proof.
  assert (E1 : addLiquidity (fun _ => true) 8453 "0xprivA" ∅ =
    (Some (RSigner "0xprivA"), {[8453 := RSigner "0xprivA"]})) by (vm_compute; reflexivity).
  assert (E2 : executeSwap (fun _ => true) (Some 1000) 8453 (Double.lit 5 1) "0xprivB"
    (runRouterOps (fun _ => true)
       [OpAddLiquidity 8453 "0xprivB"; OpExecuteSwap (Some 1000) 8453 (Double.lit 5 1) "0xprivB"]
       {[8453 := RSigner "0xprivA"]}) =
    (Some (RSigner "0xprivA", 995), {[8453 := RSigner "0xprivA"]}))
    by (vm_compute; reflexivity).
  assert (E0 : (∅ : gmap Z Runner) !! 8453 = None) by apply lookup_empty.
  split; [exact E1|]. split; [exact E2|].
  exact (proj2 (proj2 (addLiquidity_router_reused (fun _ => true) 8453 "0xprivA" "0xprivB" (Some 1000)
    (Double.lit 5 1) ∅ {[8453 := RSigner "0xprivA"]} (RSigner "0xprivA") E0 E1)
    [OpAddLiquidity 8453 "0xprivB"; OpExecuteSwap (Some 1000) 8453 (Double.lit 5 1) "0xprivB"])
    (RSigner "0xprivA") 995 {[8453 := RSigner "0xprivA"]} E2).
Defined.

End RouterCacheFacts.

(* ------------------------------------------------------------------ *)
(** ** Price impact, best chain, swap preconditions *)

Module PriceImpactFacts.
Import NineMM.
Open Scope Q_scope.



End PriceImpactFacts.

(* ------------------------------------------------------------------ *)
(** ** Best chain for a pair *)

Module BestChainFacts.
Import Compare.

Lemma sortBy_nil (l : list I9MMSwapQuote) : sortBy l = [] -> l = [].
Proof.
  intros H. pose proof (CompareFacts.sortBy_perm l) as P. rewrite H in P.
  apply Permutation_nil, P.
Qed.

Lemma sortBy_head (l : list I9MMSwapQuote) (q : I9MMSwapQuote) (rest : list I9MMSwapQuote) :
  sortBy l = q :: rest ->
  exists pre post, l = pre ++ q :: post /\
    (forall p, In p pre -> toAmount9 p < toAmount9 q) /\
    (forall p, In p post -> toAmount9 p <= toAmount9 q).
Proof.
  revert q rest. induction l as [|x xs IH]; intros q rest H; simpl in H; [discriminate|].
  destruct (sortBy xs) as [|y ys] eqn:E.
  - apply sortBy_nil in E. subst xs. simpl in H. injection H as <- _.
    exists [], []. simpl. repeat split; [intros _ []|intros _ []].
  - destruct (IH y ys eq_refl) as (pre & post & Hxs & Hpre & Hpost).
    simpl in H. unfold compareFn in H. destruct (toAmount9 x - toAmount9 y <? 0) eqn:C.
    + injection H as <- _. apply Z.ltb_lt in C.
      exists (x :: pre), post. rewrite Hxs. split; [reflexivity|]. split; [|exact Hpost].
      intros p [<-|Hp]; [lia | apply Hpre, Hp].
    + injection H as <- _. apply Z.ltb_ge in C.
      exists [], xs. split; [reflexivity|]. split; [intros _ []|].
      intros p Hp. rewrite Hxs in Hp. apply in_app_or in Hp as [Hp|[<-|Hp]].
      * specialize (Hpre p Hp). lia.
      * lia.
      * specialize (Hpost p Hp). lia.
Qed.

(** * The best chain is the first best one *)
(** [getBestChainForPair] returns a quote with the highest [toAmount]
    among the chains that answered, and among equal best amounts the one
    of the chain that comes first in 8453, 369, 146: every earlier
    quote is strictly lower, every later one is not higher. *)
Theorem getBestChainForPair_first_best (getSwapQuote : Z -> option I9MMSwapQuote)
  (q : I9MMSwapQuote) :
  getBestChainForPair getSwapQuote = Some q ->
  exists pre post, collectQuotes getSwapQuote supportedChains9MM = pre ++ q :: post /\
    (forall p, In p pre -> toAmount9 p < toAmount9 q) /\
    (forall p, In p post -> toAmount9 p <= toAmount9 q).
Proof.
  unfold getBestChainForPair, compareChainPrices.
  destruct (sortBy (collectQuotes getSwapQuote supportedChains9MM)) as [|x rest] eqn:E;
    [discriminate|].
  intros H. injection H as <-. exact (sortBy_head _ x rest E).
Qed.

Lemma getBestChainForPair_first_best_witness :
  getBestChainForPair CompareScenario.tiedQuotes = Some {| chainId := 369; toAmount9 := 7; toAmountMin9 := 0 |} /\
  exists pre post, collectQuotes CompareScenario.tiedQuotes supportedChains9MM =
    pre ++ {| chainId := 369; toAmount9 := 7; toAmountMin9 := 0 |} :: post /\
    (forall p, In p pre -> toAmount9 p < 7).
Proof.
  split; [reflexivity|].
  destruct (getBestChainForPair_first_best CompareScenario.tiedQuotes
    {| chainId := 369; toAmount9 := 7; toAmountMin9 := 0 |} eq_refl) as (pre & post & H1 & H2 & _).
  exists pre, post. split; [exact H1 | exact H2].
Defined.

End BestChainFacts.

(* ------------------------------------------------------------------ *)
(** ** When a swap is submitted *)

Module SwapGuardFacts.
Import Executor.

(** * Preconditions of a submission *)
(** [WalletService.executeSwap] submits at most one transaction, and
    only when a wallet is connected for the chain, the gas check passed,
    the aggregator returned a quote, the best quote is from 9MM or the
    chain is a 9MM chain, and [NineMM.executeSwap] (its re-quote and
    router lookup) handed back a router bound to a signer.  A successful
    result always made that submission, and reports as [dexUsed] the
    venue of the aggregated best quote, though the swap went to the 9MM
    router. *)
Theorem executeSwap_submission_guard (wallets : gmap Z string) (now : Z)
  (params : I9MMSwapParams) (r : Remote) (routers : gmap Z NineMM.Runner) :
  (length (swapSubmissions (executeSwap wallets now params r routers)) <= 1)%nat /\
  (swapSubmissions (executeSwap wallets now params r routers) <> [] ->
   is_Some (wallets !! p_chainId params) /\ checkGasBalance r = true /\
   (exists agg, aggregatorResult r = Success agg /\
      (Aggregator.isNineMM (bestQuote agg)
       || Aggregator.includes Aggregator.nineMMChains (p_chainId params)) = true) /\
   exists w key minOut routers',
     wallets !! p_chainId params = Some w /\
     NineMM.executeSwap (nineMMHasProvider r) (amountsOut r) (p_chainId params)
       (p_slippage params) w routers = (Some (NineMM.RSigner key, minOut), routers')) /\
  (success (swapResult (executeSwap wallets now params r routers)) = true ->
   swapSubmissions (executeSwap wallets now params r routers) <> [] /\
   exists agg, aggregatorResult r = Success agg /\
     dexUsed (swapResult (executeSwap wallets now params r routers)) = Some (dexProtocol (bestQuote agg))).
Proof.
  unfold executeSwap, swapSubmissions, swapResult.
  destruct (wallets !! p_chainId params) as [w|] eqn:Hw;
    [|cbn; split; [lia|split; [congruence|discriminate]]].
  destruct (checkGasBalance r) eqn:Hg; cbn [negb];
    [|cbn; split; [lia|split; [congruence|discriminate]]].
  destruct (aggregatorResult r) as [agg|code msg] eqn:Ha;
    [|cbn; split; [lia|split; [congruence|discriminate]]].
  destruct (Aggregator.isNineMM (bestQuote agg)
            || Aggregator.includes Aggregator.nineMMChains (p_chainId params)) eqn:Hn;
    [|cbn; split; [lia|split; [congruence|discriminate]]].
  unfold nineMMExecuteSwap.
  destruct (NineMM.executeSwap (nineMMHasProvider r) (amountsOut r) (p_chainId params)
              (p_slippage params) w routers) as [[[[|key] minOut]|] routers'] eqn:X;
    try (cbn; split; [lia|split; [congruence|discriminate]]).
  assert (Pre : is_Some (Some w) /\ true = true /\
    (exists agg0, Success agg = Success agg0 /\
       (Aggregator.isNineMM (bestQuote agg0)
        || Aggregator.includes Aggregator.nineMMChains (p_chainId params)) = true) /\
    exists w0 key0 minOut0 routers0, Some w = Some w0 /\
      NineMM.executeSwap (nineMMHasProvider r) (amountsOut r) (p_chainId params)
        (p_slippage params) w0 routers = (Some (NineMM.RSigner key0, minOut0), routers0))
    by (split; [eauto|]; split; [reflexivity|]; split; [eauto|]; eauto 6).
  destruct (submitResult r) as [h|]; [destruct (hasProvider r && negb (receiptOk r))|]; cbn.
  - split; [lia|]. split; [intros _; exact Pre | discriminate].
  - split; [lia|]. split; [intros _; exact Pre|].
    intros _. split; [discriminate|]. eauto.
  - split; [lia|]. split; [intros _; exact Pre | discriminate].
Qed.

Lemma executeSwap_submission_guard_witness :
  success (swapResult (executeSwap ExecScenario.execWallets ExecScenario.execNow
    ExecScenario.execParams ExecScenario.execRemote ExecScenario.execRouters)) = true /\
  swapSubmissions (executeSwap ExecScenario.execWallets ExecScenario.execNow
    ExecScenario.execParams ExecScenario.execRemote ExecScenario.execRouters) <> [].
Proof.
  assert (E : success (swapResult (executeSwap ExecScenario.execWallets ExecScenario.execNow
    ExecScenario.execParams ExecScenario.execRemote ExecScenario.execRouters)) = true)
    by (vm_compute; reflexivity).
  split; [exact E|].
  exact (proj1 (proj2 (proj2 (executeSwap_submission_guard ExecScenario.execWallets ExecScenario.execNow
    ExecScenario.execParams ExecScenario.execRemote ExecScenario.execRouters)) E)).
Defined.

End SwapGuardFacts.
